(** * my-blog: a shallow embedding of [main.py]

    The Flask application of [main.py] keeps three tables (users, blog posts,
    comments) and a signed session cookie holding the id of the logged-in
    user.  Every view function is embedded as a function from the request
    data and the current state to an [Outcome]: the response, the messages
    passed to [flash], and the state left behind.

    Conventions of the embedding:
    - a table is the list of its rows in insertion order, which is the order
      of [query.all()] and the order [first()] searches in;
    - the database is the default one, SQLite ([sqlite:///blog.db]): a new
      integer primary key is one more than the largest key in the table,
      [unique=True] is enforced at commit with [IntegrityError], foreign keys
      and string lengths are not enforced by the engine; an integer the
      engine is handed lies below [2^63], and [query.get] of a larger one
      raises [OverflowError], which the lookups here do not model: what is
      stated of the answer to a request for a post id is stated for ids
      below [2^63];
    - an exception no view catches ends the request with a 500 response and
      nothing committed ([raised]);
    - [forms.py] is not part of the sources: a form is a record of the data of
      its fields together with the verdict [validate] of its validators;
    - [generate_password_hash] and [check_password_hash] (werkzeug) are
      parameters, the random salt an explicit argument. *)

From Stdlib Require Import ZArith List String Bool Lia.
Import ListNotations.

Open Scope string_scope.
Open Scope list_scope.
Open Scope Z_scope.

(** ** Tables *)

Module User.
Record t := mk {
  id : Z;
  email : string;
  password : string;
  name : string
}.
End User.

Module BlogPost.
Record t := mk {
  id : Z;
  author_id : option Z;
  title : string;
  subtitle : string;
  date : string;
  body : string;
  img_url : string
}.
End BlogPost.

Module Comment.
Record t := mk {
  id : Z;
  text : string;
  comment_author_id : option Z;
  parent_post_id : option Z
}.
End Comment.

Record Database := mkDatabase {
  users : list User.t;
  blog_posts : list BlogPost.t;
  comments : list Comment.t
}.

(** The state a request runs in: the committed database and the user id the
    session cookie carries ([None] when nobody is logged in). *)
Record State := mkState {
  db : Database;
  session : option Z
}.

(** ** Requests and responses *)

Inductive Method := GET | HEAD | POST | PUT | PATCH | DELETE.

Inductive Endpoint :=
| ep_get_all_posts
| ep_login
| ep_show_post (post_id : Z).

Inductive Exception :=
| AttributeError
| UnmappedInstanceError
| IntegrityError.

(** What a template is rendered with. *)
Inductive Context :=
| ctx_none
| ctx_all_posts (all_posts : list BlogPost.t)
| ctx_form
| ctx_post (post : option BlogPost.t).

Inductive Response :=
| render_template (template : string) (ctx : Context)
| redirect (target : Endpoint)
| abort (code : Z)
| raised (e : Exception).

Record Outcome := mkOutcome {
  response : Response;
  flashed : list string;
  after : State
}.

Inductive Result (A : Type) :=
| Ok (a : A)
| Raise (e : Exception).
Arguments Ok {A} a.
Arguments Raise {A} e.

(** ** Forms *)

Module RegisterForm.
Record t := mk {
  email : string;
  password : string;
  name : string;
  validate : bool
}.
End RegisterForm.

Module LoginForm.
Record t := mk {
  email : string;
  password : string;
  validate : bool
}.
End LoginForm.

Module CommentForm.
Record t := mk {
  comment : string;
  validate : bool
}.
End CommentForm.

(** The data of [author] is the user row the field denotes, by id. *)
Module CreatePostForm.
Record t := mk {
  title : string;
  subtitle : string;
  img_url : string;
  author : option Z;
  body : string;
  validate : bool
}.
End CreatePostForm.

(** flask_wtf: a form is submitted when the request method is one of POST,
    PUT, PATCH, DELETE; [validate_on_submit] is [is_submitted() and validate()]. *)
Definition is_submitted (m : Method) : bool :=
  match m with
  | POST | PUT | PATCH | DELETE => true
  | GET | HEAD => false
  end.

Definition validate_on_submit (m : Method) (validate : bool) : bool :=
  is_submitted m && validate.

(** ** Queries *)

Definition next_id (ids : list Z) : Z := 1 + fold_right Z.max 0 ids.

Definition User_query_get (d : Database) (i : Z) : option User.t :=
  find (fun u => User.id u =? i) (users d).

Definition User_query_filter_by_email_first (d : Database) (e : string)
  : option User.t :=
  find (fun u => String.eqb (User.email u) e) (users d).

Definition BlogPost_query_all (d : Database) : list BlogPost.t := blog_posts d.

(** [BlogPost.query.get(i)], for an [i] below [2^63]. *)
Definition BlogPost_query_get (d : Database) (i : Z) : option BlogPost.t :=
  find (fun p => BlogPost.id p =? i) (blog_posts d).

(** ** Session and identity *)

Definition load_user (d : Database) (user_id : Z) : option User.t :=
  User_query_get d user_id.

(** [current_user]: the row [load_user] finds for the id in the session;
    [None] is the anonymous user. *)
Definition current_user (st : State) : option User.t :=
  match session st with
  | Some user_id => load_user (db st) user_id
  | None => None
  end.

Definition is_authenticated (cu : option User.t) : bool :=
  match cu with
  | Some _ => true
  | None => false
  end.

Definition login_user (u : User.t) (st : State) : State :=
  mkState (db st) (Some (User.id u)).

Definition logout_user (st : State) : State :=
  mkState (db st) None.

(** ** Commits *)

(** [db.session.add(User(...)); db.session.commit()] *)
Definition insert_user (d : Database) (email password name : string)
  : Result (User.t * Database) :=
  if existsb (fun u => String.eqb (User.email u) email) (users d)
  then Raise IntegrityError
  else
    let new_user := User.mk (next_id (map User.id (users d))) email password name in
    Ok (new_user, mkDatabase (users d ++ [new_user]) (blog_posts d) (comments d)).

(** [db.session.add(BlogPost(...)); db.session.commit()]; the foreign key
    [author_id] is the id of the row given as [author]. *)
Definition insert_post (d : Database) (title subtitle body img_url : string)
  (author : User.t) (date : string) : Result Database :=
  if existsb (fun p => String.eqb (BlogPost.title p) title) (blog_posts d)
  then Raise IntegrityError
  else
    let new_post :=
      BlogPost.mk (next_id (map BlogPost.id (blog_posts d)))
                  (Some (User.id author)) title subtitle date body img_url in
    Ok (mkDatabase (users d) (blog_posts d ++ [new_post]) (comments d)).

(** [db.session.add(Comment(...)); db.session.commit()].  The constructor is
    given both the foreign keys and the related rows; at flush the ORM sets
    each foreign key from the related row, NULL for a related row of [None]. *)
Definition insert_comment (d : Database) (text : string)
  (comment_author_id : Z) (comment_author : User.t)
  (parent_post_id : Z) (parent_post : option BlogPost.t) : Database :=
  let new_comment :=
    Comment.mk (next_id (map Comment.id (comments d))) text
               (Some (User.id comment_author))
               (option_map BlogPost.id parent_post) in
  mkDatabase (users d) (blog_posts d) (comments d ++ [new_comment]).

Definition set_post_fields (post : BlogPost.t) (title subtitle img_url : string)
  (author : option Z) (body : string) : BlogPost.t :=
  BlogPost.mk (BlogPost.id post) author title subtitle
              (BlogPost.date post) body img_url.

(** The commit of [edit_post]: an UPDATE of the row of [post]. *)
Definition update_post (d : Database) (post : BlogPost.t)
  (title subtitle img_url : string) (author : option Z) (body : string)
  : Result Database :=
  if existsb (fun p => negb (BlogPost.id p =? BlogPost.id post)
                       && String.eqb (BlogPost.title p) title) (blog_posts d)
  then Raise IntegrityError
  else
    Ok (mkDatabase (users d)
          (map (fun p => if BlogPost.id p =? BlogPost.id post
                         then set_post_fields post title subtitle img_url author body
                         else p) (blog_posts d))
          (comments d)).

Definition Z_option_eqb (a : option Z) (b : Z) : bool :=
  match a with
  | Some x => x =? b
  | None => false
  end.

(** [db.session.delete(post); db.session.commit()].  The relationship
    [comments] has no cascade: the ORM sets [parent_post_id] of the comments
    of the post to NULL, then deletes the row. *)
Definition delete_row (d : Database) (post : BlogPost.t) : Database :=
  mkDatabase (users d)
    (filter (fun p => negb (BlogPost.id p =? BlogPost.id post)) (blog_posts d))
    (map (fun c => if Z_option_eqb (Comment.parent_post_id c) (BlogPost.id post)
                   then Comment.mk (Comment.id c) (Comment.text c)
                                   (Comment.comment_author_id c) None
                   else c) (comments d)).

(** ** View functions *)

Definition respond (r : Response) (st : State) : Outcome := mkOutcome r [] st.

Definition flash_and (msg : string) (r : Response) (st : State) : Outcome :=
  mkOutcome r [msg] st.

(** An exception nobody catches: 500, and the state as the request found it. *)
Definition unhandled (e : Exception) (st : State) : Outcome :=
  respond (raised e) st.

(** The decorator [admin_only]: [function] runs only when the test
    [not current_user.is_authenticated or current_user.id != 1] fails.  The
    [or] is lazy: [current_user.id] is read for an authenticated user only. *)
Definition admin_only (function : State -> Outcome) (st : State) : Outcome :=
  if negb (is_authenticated (current_user st))
     || match current_user st with
        | Some u => negb (User.id u =? 1)
        | None => true
        end
  then respond (abort 403) st
  else function st.

Definition get_all_posts (st : State) : Outcome :=
  let posts := BlogPost_query_all (db st) in
  respond (render_template "index.html" (ctx_all_posts posts)) st.

Definition logout (st : State) : Outcome :=
  respond (redirect ep_get_all_posts) (logout_user st).

Definition show_post (post_id : Z) (m : Method) (comment_form : CommentForm.t)
  (st : State) : Outcome :=
  let requested_post := BlogPost_query_get (db st) post_id in
  if validate_on_submit m (CommentForm.validate comment_form) then
    match current_user st with
    | None =>
        flash_and "You need to log in or register to comment."
                  (redirect ep_login) st
    | Some cu =>
        let d := insert_comment (db st) (CommentForm.comment comment_form)
                                (User.id cu) cu post_id requested_post in
        respond (render_template "post.html" (ctx_post requested_post))
                (mkState d (session st))
    end
  else
    respond (render_template "post.html" (ctx_post requested_post)) st.

Definition about (st : State) : Outcome :=
  respond (render_template "about.html" ctx_none) st.

Definition contact (st : State) : Outcome :=
  respond (render_template "contact.html" ctx_none) st.

(** The body of [add_new_post]; [today] is [date.today().strftime("%B %d, %Y")].
    Giving the anonymous user as [author] is an [AttributeError]; behind
    [admin_only] the caller is never anonymous. *)
Definition add_new_post_body (m : Method) (form : CreatePostForm.t)
  (today : string) (st : State) : Outcome :=
  if validate_on_submit m (CreatePostForm.validate form) then
    match current_user st with
    | None => unhandled AttributeError st
    | Some cu =>
        match insert_post (db st) (CreatePostForm.title form)
                (CreatePostForm.subtitle form) (CreatePostForm.body form)
                (CreatePostForm.img_url form) cu today with
        | Ok d => respond (redirect ep_get_all_posts) (mkState d (session st))
        | Raise e => unhandled e st
        end
    end
  else
    respond (render_template "make-post.html" ctx_form) st.

Definition add_new_post (m : Method) (form : CreatePostForm.t) (today : string)
  : State -> Outcome :=
  admin_only (add_new_post_body m form today).

(** The body of [edit_post].  The form is built with the fields of the post
    as defaults; [edit_form] is the data of its fields once it is bound to
    the request.  [post.title] on a missing post is an [AttributeError]. *)
Definition edit_post_body (post_id : Z) (m : Method) (edit_form : CreatePostForm.t)
  (st : State) : Outcome :=
  match BlogPost_query_get (db st) post_id with
  | None => unhandled AttributeError st
  | Some post =>
      if validate_on_submit m (CreatePostForm.validate edit_form) then
        match update_post (db st) post (CreatePostForm.title edit_form)
                (CreatePostForm.subtitle edit_form)
                (CreatePostForm.img_url edit_form)
                (CreatePostForm.author edit_form)
                (CreatePostForm.body edit_form) with
        | Ok d => respond (redirect (ep_show_post (BlogPost.id post)))
                          (mkState d (session st))
        | Raise e => unhandled e st
        end
      else
        respond (render_template "make-post.html" ctx_form) st
  end.

Definition edit_post (post_id : Z) (m : Method) (edit_form : CreatePostForm.t)
  : State -> Outcome :=
  admin_only (edit_post_body post_id m edit_form).

(** The body of [delete_post]; [db.session.delete(None)] raises
    [UnmappedInstanceError]. *)
Definition delete_post_body (post_id : Z) (st : State) : Outcome :=
  match BlogPost_query_get (db st) post_id with
  | None => unhandled UnmappedInstanceError st
  | Some post_to_delete =>
      respond (redirect ep_get_all_posts)
              (mkState (delete_row (db st) post_to_delete) (session st))
  end.

Definition delete_post (post_id : Z) : State -> Outcome :=
  admin_only (delete_post_body post_id).

Section Passwords.

(** [generate_password_hash password salt] with the salt that the call
    draws; [check_password_hash pwhash password]. *)
Variable generate_password_hash : string -> string -> string.
Variable check_password_hash : string -> string -> bool.

Definition register (m : Method) (reg_form : RegisterForm.t) (salt : string)
  (st : State) : Outcome :=
  if validate_on_submit m (RegisterForm.validate reg_form) then
    let input_email := RegisterForm.email reg_form in
    match User_query_filter_by_email_first (db st) input_email with
    | Some _ =>
        flash_and "You've already signed up with that email, log in instead!"
                  (redirect ep_login) st
    | None =>
        let hashed_salted_pwd :=
          generate_password_hash (RegisterForm.password reg_form) salt in
        match insert_user (db st) (RegisterForm.email reg_form)
                hashed_salted_pwd (RegisterForm.name reg_form) with
        | Ok (new_user, d) =>
            respond (redirect ep_get_all_posts)
                    (login_user new_user (mkState d (session st)))
        | Raise e => unhandled e st
        end
    end
  else
    respond (render_template "register.html" ctx_form) st.

Definition login (m : Method) (login_form : LoginForm.t) (st : State)
  : Outcome :=
  if validate_on_submit m (LoginForm.validate login_form) then
    match User_query_filter_by_email_first (db st)
            (LoginForm.email login_form) with
    | None =>
        flash_and "That email does not exist, please try again."
                  (render_template "login.html" ctx_form) st
    | Some found_user =>
        if negb (check_password_hash (User.password found_user)
                                     (LoginForm.password login_form))
        then flash_and "Incorrect password, please try again."
                       (render_template "login.html" ctx_form) st
        else respond (redirect ep_get_all_posts) (login_user found_user st)
    end
  else
    respond (render_template "login.html" ctx_form) st.

(** ** Routing

    A request names a route and carries what the view reads.  A route
    declared without [methods] answers GET and HEAD only; one declared with
    [methods=["GET", "POST"]] answers GET, HEAD and POST.  Any other method
    is answered 405 before the view runs.  The [int] converter of a route
    matches unsigned numbers only, anything else is a 404. *)

Inductive Request :=
| req_get_all_posts
| req_register (reg_form : RegisterForm.t) (salt : string)
| req_login (login_form : LoginForm.t)
| req_logout
| req_show_post (post_id : Z) (comment_form : CommentForm.t)
| req_about
| req_contact
| req_add_new_post (form : CreatePostForm.t) (today : string)
| req_edit_post (post_id : Z) (edit_form : CreatePostForm.t)
| req_delete_post (post_id : Z).

Definition get_only (m : Method) : bool :=
  match m with
  | GET | HEAD => true
  | _ => false
  end.

Definition get_or_post (m : Method) : bool :=
  match m with
  | GET | HEAD | POST => true
  | _ => false
  end.

Definition route (allowed : Method -> bool) (m : Method)
  (view : State -> Outcome) (st : State) : Outcome :=
  if allowed m then view st else respond (abort 405) st.

Definition int_route (post_id : Z) (k : State -> Outcome) (st : State)
  : Outcome :=
  if 0 <=? post_id then k st else respond (abort 404) st.

Definition handle (m : Method) (r : Request) : State -> Outcome :=
  match r with
  | req_get_all_posts => route get_only m get_all_posts
  | req_register reg_form salt =>
      route get_or_post m (register m reg_form salt)
  | req_login login_form => route get_or_post m (login m login_form)
  | req_logout => route get_only m logout
  | req_show_post post_id comment_form =>
      int_route post_id (route get_or_post m (show_post post_id m comment_form))
  | req_about => route get_only m about
  | req_contact => route get_only m contact
  | req_add_new_post form today =>
      route get_or_post m (add_new_post m form today)
  | req_edit_post post_id edit_form =>
      int_route post_id (route get_only m (edit_post post_id m edit_form))
  | req_delete_post post_id =>
      int_route post_id (route get_only m (delete_post post_id))
  end.

(** The states the application can be in: it starts on the empty tables
    that [db.create_all()] makes, with nobody logged in, and moves by
    answering requests. *)
Definition initial : State := mkState (mkDatabase [] [] []) None.

Inductive reachable : State -> Prop :=
| reachable_initial : reachable initial
| reachable_handle st m r :
    reachable st -> reachable (after (handle m r st)).

Fixpoint run (reqs : list (Method * Request)) (st : State) : State :=
  match reqs with
  | [] => st
  | (m, r) :: rest => run rest (after (handle m r st))
  end.

End Passwords.

(** ** Properties of states *)

(** The content service's [list_posts]. *)
Definition list_posts (st : State) : list BlogPost.t := BlogPost_query_all (db st).

(** The caller of a request is the administrator: authenticated, with id 1.
    [admin_only] lets exactly these callers through ([admin_only_pass],
    [admin_only_reject]). *)
Definition is_admin (cu : option User.t) : bool :=
  match cu with
  | Some u => User.id u =? 1
  | None => false
  end.

Definition user_exists (d : Database) (ref : option Z) : bool :=
  match ref with
  | Some i => existsb (fun u => User.id u =? i) (users d)
  | None => false
  end.

Definition post_exists (d : Database) (ref : option Z) : bool :=
  match ref with
  | Some i => existsb (fun p => BlogPost.id p =? i) (blog_posts d)
  | None => false
  end.

(** Every comment and every post has an author that is a stored user. *)
Definition authors_valid (d : Database) : bool :=
  forallb (fun c => user_exists d (Comment.comment_author_id c)) (comments d)
  && forallb (fun p => user_exists d (BlogPost.author_id p)) (blog_posts d).

(** Every comment has a parent post that is a stored post. *)
Definition parents_valid (d : Database) : bool :=
  forallb (fun c => post_exists d (Comment.parent_post_id c)) (comments d).

Definition referential_integrity (d : Database) : bool :=
  authors_valid d && parents_valid d.

(** The [unique=True] of [User.email]. *)
Definition unique_emails (d : Database) : Prop :=
  NoDup (map User.email (users d)).

(** ** Example states *)

(** A stand-in for the werkzeug pair, for running examples: the "hash" is the
    password, a separator and the salt; checking compares the prefix. *)
Definition example_generate (password salt : string) : string :=
  String.append (String.append password "$") salt.

Definition example_check (pwhash password : string) : bool :=
  String.prefix (String.append password "$") pwhash.

Definition example_admin : User.t :=
  User.mk 1 "admin@x.com" (example_generate "secret" "s1") "Admin".
Definition example_reader : User.t :=
  User.mk 2 "a@x.com" (example_generate "pw" "s2") "A".
Definition example_post : BlogPost.t :=
  BlogPost.mk 1 (Some 1) "Hello" "sub" "November 03, 2026" "text" "img".

(** Two users and one post; the reader (id 2) is logged in. *)
Definition example_reader_state : State :=
  mkState (mkDatabase [example_admin; example_reader] [example_post] []) (Some 2).

(** The same tables with the administrator logged in. *)
Definition example_admin_state : State :=
  mkState (mkDatabase [example_admin; example_reader] [example_post] []) (Some 1).

(** The same tables with nobody logged in. *)
Definition example_anonymous_state : State :=
  mkState (mkDatabase [example_admin; example_reader] [example_post] []) None.

(** The first user registers and comments on a post that does not exist. *)
Definition orphan_comment_trace : list (Method * Request) :=
  [ (POST, req_register (RegisterForm.mk "admin@x.com" "secret" "Admin" true) "salt");
    (POST, req_show_post 7 (CommentForm.mk "nice post" true)) ].

(** The first user registers, writes a post, comments on it and deletes it. *)
Definition delete_commented_trace : list (Method * Request) :=
  [ (POST, req_register (RegisterForm.mk "admin@x.com" "secret" "Admin" true) "salt");
    (POST, req_add_new_post (CreatePostForm.mk "Hello" "s" "i" None "b" true)
                            "November 03, 2026");
    (POST, req_show_post 1 (CommentForm.mk "nice post" true));
    (GET, req_delete_post 1) ].

(** The verdict of the validators on the form a request carries; a request
    to a route that reads no form carries none. *)
Definition request_form_validates (r : Request) : bool :=
  match r with
  | req_register reg_form _ => RegisterForm.validate reg_form
  | req_login login_form => LoginForm.validate login_form
  | req_show_post _ comment_form => CommentForm.validate comment_form
  | req_add_new_post form _ => CreatePostForm.validate form
  | req_edit_post _ edit_form => CreatePostForm.validate edit_form
  | req_get_all_posts | req_logout | req_about | req_contact
  | req_delete_post _ => false
  end.

(** ** Schema constraints *)

(** The primary keys: in each table the ids are pairwise different and
    positive. *)
Definition primary_keys (d : Database) : Prop :=
  (NoDup (map User.id (users d)) /\ Forall (fun i => 1 <= i) (map User.id (users d))) /\
  (NoDup (map BlogPost.id (blog_posts d))
   /\ Forall (fun i => 1 <= i) (map BlogPost.id (blog_posts d))) /\
  (NoDup (map Comment.id (comments d))
   /\ Forall (fun i => 1 <= i) (map Comment.id (comments d))).

(** The [unique=True] of [BlogPost.title]. *)
Definition unique_titles (d : Database) : Prop :=
  NoDup (map BlogPost.title (blog_posts d)).

(** The id in the session, when there is one, is the id of a stored user. *)
Definition session_valid (st : State) : Prop :=
  match session st with
  | Some user_id => user_exists (db st) (Some user_id) = true
  | None => True
  end.

(** The administrator registers and writes a post; a reader registers and
    comments on it. *)
Definition example_trace : list (Method * Request) :=
  [ (POST, req_register (RegisterForm.mk "admin@x.com" "secret" "Admin" true) "s1");
    (POST, req_add_new_post (CreatePostForm.mk "Hello" "s" "i" None "b" true)
                            "November 03, 2026");
    (POST, req_register (RegisterForm.mk "a@x.com" "pw" "A" true) "s2");
    (POST, req_show_post 1 (CommentForm.mk "nice post" true)) ].

(** The state [example_trace] leads to, with the stand-in hash pair. *)
Definition example_run : State :=
  run example_generate example_check example_trace initial.

(** What a comment row keeps for good: its id, its text and its author. *)
Definition comment_content (c : Comment.t) : Z * string * option Z :=
  (Comment.id c, Comment.text c, Comment.comment_author_id c).

(** ** What a request can commit *)

(** The changes of the database that answering a request can make: none, a
    new user, a comment by the logged-in user, a post by the logged-in user,
    the deletion of a post.  The route of [edit_post] takes no method that
    submits a form, so no request commits an edit. *)
Inductive commits (st : State) : Database -> Prop :=
| commits_nothing : commits st (db st)
| commits_user email password name new_user d :
    insert_user (db st) email password name = Ok (new_user, d) ->
    commits st d
| commits_comment text cu post_id :
    current_user st = Some cu ->
    commits st (insert_comment (db st) text (User.id cu) cu post_id
                               (BlogPost_query_get (db st) post_id))
| commits_post title subtitle body img_url cu today d :
    current_user st = Some cu ->
    insert_post (db st) title subtitle body img_url cu today = Ok d ->
    commits st d
| commits_delete post :
    commits st (delete_row (db st) post).

(** ** Lemmas on queries and commits *)

Lemma find_email_some (l : list User.t) (e : string) (u : User.t) :
  find (fun u => String.eqb (User.email u) e) l = Some u ->
  In u l /\ User.email u = e.
Proof.
  intros H. apply find_some in H. destruct H as [Hin Heq].
  split; [assumption | now apply String.eqb_eq].
Qed.

Lemma find_email_none (l : list User.t) (e : string) :
  find (fun u => String.eqb (User.email u) e) l = None <->
  (forall u, In u l -> User.email u <> e).
Proof.
  split.
  - intros H u Hin Heq.
    pose proof (find_none _ _ H u Hin) as Hf. simpl in Hf.
    apply String.eqb_neq in Hf. contradiction.
  - intros H. induction l as [|a l IH]; simpl; [reflexivity|].
    destruct (String.eqb (User.email a) e) eqn:E.
    + apply String.eqb_eq in E. exfalso. apply (H a); [now left | assumption].
    + apply IH. intros u Hin. apply H. now right.
Qed.

Lemma find_app_none {A : Type} (f : A -> bool) (l l' : list A) :
  find f l = None -> find f (l ++ l') = find f l'.
Proof.
  induction l as [|a l IH]; simpl; [reflexivity|].
  destruct (f a); [discriminate | exact IH].
Qed.

Lemma existsb_email_find (l : list User.t) (e : string) :
  existsb (fun u => String.eqb (User.email u) e) l = false <->
  find (fun u => String.eqb (User.email u) e) l = None.
Proof.
  induction l as [|a l IH]; simpl; [tauto|].
  destruct (String.eqb (User.email a) e); simpl; [split; discriminate | exact IH].
Qed.

(** With unique emails, the row [first()] returns is the only row with that
    email. *)
Lemma find_email_unique (l : list User.t) (e : string) (u : User.t) :
  NoDup (map User.email l) -> In u l -> User.email u = e ->
  find (fun u => String.eqb (User.email u) e) l = Some u.
Proof.
  induction l as [|a l IH]; simpl; intros Hnd Hin He; [contradiction|].
  inversion Hnd as [|x xs Hnotin Hnd']; subst x xs.
  destruct Hin as [-> | Hin].
  - rewrite (proj2 (String.eqb_eq _ _) He). reflexivity.
  - destruct (String.eqb (User.email a) e) eqn:E.
    + apply String.eqb_eq in E. exfalso. apply Hnotin.
      rewrite E, <- He. now apply in_map.
    + now apply IH.
Qed.

Lemma insert_user_fresh (d : Database) (e pw n : string) :
  User_query_filter_by_email_first d e = None ->
  insert_user d e pw n =
  Ok (User.mk (next_id (map User.id (users d))) e pw n,
      mkDatabase (users d ++ [User.mk (next_id (map User.id (users d))) e pw n])
                 (blog_posts d) (comments d)).
Proof.
  intros H. unfold insert_user.
  unfold User_query_filter_by_email_first in H.
  apply existsb_email_find in H. rewrite H. reflexivity.
Qed.

Lemma insert_user_unique_emails (d d' : Database) (e pw n : string) (u : User.t) :
  unique_emails d -> insert_user d e pw n = Ok (u, d') -> unique_emails d'.
Proof.
  unfold unique_emails, insert_user. intros Hnd H.
  destruct (existsb _ (users d)) eqn:E; [discriminate|].
  injection H as <- <-. simpl.
  rewrite map_app. simpl.
  apply existsb_email_find in E.
  pose proof (proj1 (find_email_none _ _) E) as Hfresh.
  apply NoDup_app; [assumption | repeat constructor; simpl; tauto |].
  intros a Hin [<- | []].
  apply in_map_iff in Hin. destruct Hin as [x [Hx Hin]].
  exact (Hfresh x Hin Hx).
Qed.

Lemma admin_only_pass (function : State -> Outcome) (st : State) :
  is_admin (current_user st) = true -> admin_only function st = function st.
Proof.
  unfold admin_only, is_admin. destruct (current_user st) as [u|]; simpl.
  - intros ->. reflexivity.
  - discriminate.
Qed.

Lemma admin_only_reject (function : State -> Outcome) (st : State) :
  is_admin (current_user st) = false ->
  admin_only function st = respond (abort 403) st.
Proof.
  unfold admin_only, is_admin. destruct (current_user st) as [u|]; simpl.
  - intros ->. reflexivity.
  - reflexivity.
Qed.

(** ** The administrator gate *)

(** C1.  For a caller that is not the administrator, anonymous or logged in
    under another id, each of [add_new_post], [edit_post] and [delete_post]
    answers 403 and leaves the whole state, so the stored posts too, exactly
    as it found it, whatever the request carries. *)
Theorem admin_gate_forbids_and_preserves (st : State) :
  is_admin (current_user st) = false ->
  (forall m form today,
      response (add_new_post m form today st) = abort 403 /\
      after (add_new_post m form today st) = st /\
      list_posts (after (add_new_post m form today st)) = list_posts st) /\
  (forall post_id m edit_form,
      response (edit_post post_id m edit_form st) = abort 403 /\
      after (edit_post post_id m edit_form st) = st /\
      list_posts (after (edit_post post_id m edit_form st)) = list_posts st) /\
  (forall post_id,
      response (delete_post post_id st) = abort 403 /\
      after (delete_post post_id st) = st /\
      list_posts (after (delete_post post_id st)) = list_posts st).
Proof.
  intros Hna.
  unfold add_new_post, edit_post, delete_post.
  repeat split; rewrite admin_only_reject by assumption; reflexivity.
Qed.

Lemma admin_gate_forbids_and_preserves_witness :
  is_admin (current_user example_reader_state) = false /\
  response (delete_post 1 example_reader_state) = abort 403 /\
  list_posts (after (delete_post 1 example_reader_state)) = [example_post].
Proof.
  split; [reflexivity|].
  destruct (admin_gate_forbids_and_preserves example_reader_state eq_refl)
    as [_ [_ Hdel]].
  destruct (Hdel 1) as [Hr [_ Hl]].
  split; [exact Hr | exact Hl].
Defined.

(** ** Logging out *)

(** C10.  [logout] answers every caller with a redirect to the post listing;
    it leaves the database alone and empties the session, so for an anonymous
    caller nothing changes at all, and a second [logout] answers as the first
    and leaves the same state. *)
Theorem logout_total_and_idempotent (st : State) :
  response (logout st) = redirect ep_get_all_posts /\
  flashed (logout st) = [] /\
  db (after (logout st)) = db st /\
  session (after (logout st)) = None /\
  (session st = None -> after (logout st) = st) /\
  logout (after (logout st)) = logout st.
Proof.
  unfold logout, logout_user, respond. simpl.
  repeat split.
  destruct st as [d s]. simpl. intros ->. reflexivity.
Qed.

(** ** Comments *)



(** C6 (the code departs from it).  A logged-in caller who submits a comment
    for a post id below [2^63] that no stored post has is not refused:
    [show_post] stores
    one new comment row, with the submitted text and the caller as author,
    whose parent is no stored post, and goes on to render the page for the
    missing post. *)
Theorem comment_on_missing_post_is_stored (st : State) (post_id : Z) (m : Method)
  (comment_form : CommentForm.t) (cu : User.t) :
  current_user st = Some cu ->
  0 <= post_id < 2 ^ 63 ->
  BlogPost_query_get (db st) post_id = None ->
  validate_on_submit m (CommentForm.validate comment_form) = true ->
  response (show_post post_id m comment_form st)
    = render_template "post.html" (ctx_post None) /\
  response (show_post post_id m comment_form st) <> abort 404 /\
  exists c,
    comments (db (after (show_post post_id m comment_form st)))
      = comments (db st) ++ [c] /\
    Comment.text c = CommentForm.comment comment_form /\
    Comment.comment_author_id c = Some (User.id cu) /\
    post_exists (db (after (show_post post_id m comment_form st)))
                (Comment.parent_post_id c) = false.
Proof.
  intros Hcu _ Hmiss Hval. unfold show_post. rewrite Hcu, Hmiss, Hval. simpl.
  split; [reflexivity|]. split; [discriminate|].
  eexists. split; [reflexivity|]. simpl. repeat split.
Qed.

Lemma comment_on_missing_post_is_stored_witness :
  current_user example_reader_state = Some example_reader /\
  0 <= 7 < 2 ^ 63 /\
  BlogPost_query_get (db example_reader_state) 7 = None /\
  exists c,
    comments (db (after (show_post 7 POST (CommentForm.mk "nice post" true)
                           example_reader_state))) = [c] /\
    Comment.text c = "nice post".
Proof.
  assert (Hrange : 0 <= 7 < 2 ^ 63) by (split; [discriminate | reflexivity]).
  split; [reflexivity|]. split; [exact Hrange|]. split; [reflexivity|].
  destruct (comment_on_missing_post_is_stored example_reader_state 7 POST
              (CommentForm.mk "nice post" true) example_reader
              eq_refl Hrange eq_refl eq_refl) as [_ [_ [c [Hc [Ht _]]]]].
  exists c. split; [exact Hc | exact Ht].
Defined.

(** ** Posts *)

(** C7 (the code departs from it).  When the administrator asks to delete a
    post id below [2^63] that no stored post has, [delete_post] hands [None] to
    [db.session.delete], which raises [UnmappedInstanceError]: the answer is
    a server error, not a 404, and the state, so the length of the post
    listing too, is as before. *)
Theorem delete_missing_post_raises (st : State) (post_id : Z) :
  is_admin (current_user st) = true ->
  0 <= post_id < 2 ^ 63 ->
  BlogPost_query_get (db st) post_id = None ->
  response (delete_post post_id st) = raised UnmappedInstanceError /\
  response (delete_post post_id st) <> abort 404 /\
  after (delete_post post_id st) = st /\
  List.length (list_posts (after (delete_post post_id st))) = List.length (list_posts st).
Proof.
  intros Hadm _ Hmiss. unfold delete_post.
  rewrite admin_only_pass by assumption.
  unfold delete_post_body. rewrite Hmiss. simpl.
  repeat split. discriminate.
Qed.

Lemma delete_missing_post_raises_witness :
  is_admin (current_user example_admin_state) = true /\
  0 <= 7 < 2 ^ 63 /\
  BlogPost_query_get (db example_admin_state) 7 = None /\
  response (delete_post 7 example_admin_state) = raised UnmappedInstanceError.
Proof.
  assert (Hrange : 0 <= 7 < 2 ^ 63) by (split; [discriminate | reflexivity]).
  split; [reflexivity|]. split; [exact Hrange|]. split; [reflexivity|].
  exact (proj1 (delete_missing_post_raises example_admin_state 7
                  eq_refl Hrange eq_refl)).
Defined.

Lemma existsb_title (l : list BlogPost.t) (t : string) (p : BlogPost.t) :
  In p l -> BlogPost.title p = t ->
  existsb (fun p => String.eqb (BlogPost.title p) t) l = true.
Proof.
  intros Hin Ht. apply existsb_exists. exists p.
  split; [assumption | now apply String.eqb_eq].
Qed.

(** C8.  When a stored post already has the title of the form, the commit of
    [add_new_post] by the administrator violates the unique constraint on
    [title]: the request fails with [IntegrityError] and the state, so the
    number of stored posts too, is as before. *)
Theorem duplicate_title_rejected (st : State) (m : Method)
  (form : CreatePostForm.t) (today : string) (p : BlogPost.t) :
  is_admin (current_user st) = true ->
  validate_on_submit m (CreatePostForm.validate form) = true ->
  In p (blog_posts (db st)) ->
  BlogPost.title p = CreatePostForm.title form ->
  response (add_new_post m form today st) = raised IntegrityError /\
  after (add_new_post m form today st) = st /\
  List.length (list_posts (after (add_new_post m form today st)))
    = List.length (list_posts st).
Proof.
  intros Hadm Hval Hin Ht. unfold add_new_post.
  rewrite admin_only_pass by assumption.
  unfold add_new_post_body. rewrite Hval.
  unfold is_admin in Hadm. destruct (current_user st) as [cu|]; [|discriminate].
  unfold insert_post. rewrite (existsb_title _ _ p Hin Ht). simpl.
  repeat split.
Qed.

Lemma duplicate_title_rejected_witness :
  is_admin (current_user example_admin_state) = true /\
  In example_post (blog_posts (db example_admin_state)) /\
  response (add_new_post POST (CreatePostForm.mk "Hello" "s" "i" None "b" true)
              "November 04, 2026" example_admin_state) = raised IntegrityError /\
  List.length (list_posts (after (add_new_post POST
              (CreatePostForm.mk "Hello" "s" "i" None "b" true)
              "November 04, 2026" example_admin_state))) = 1%nat.
Proof.
  split; [reflexivity|]. split; [now left|].
  destruct (duplicate_title_rejected example_admin_state POST
              (CreatePostForm.mk "Hello" "s" "i" None "b" true)
              "November 04, 2026" example_post eq_refl eq_refl
              (or_introl eq_refl) eq_refl) as [Hr [_ Hl]].
  split; [exact Hr | exact Hl].
Defined.

Lemma find_post_id (l : list BlogPost.t) (i : Z) (p : BlogPost.t) :
  find (fun p => BlogPost.id p =? i) l = Some p -> BlogPost.id p = i.
Proof.
  intros H. apply find_some in H. now apply Z.eqb_eq.
Qed.

(** Replacing the rows of id [i] by a row of id [i]: what [query.get] finds
    under [i] is the new row, and under any other id what it found before. *)
Lemma find_replace_same (l : list BlogPost.t) (i : Z) (p q : BlogPost.t) :
  BlogPost.id q = i ->
  find (fun p => BlogPost.id p =? i) l = Some p ->
  find (fun p => BlogPost.id p =? i)
       (map (fun p => if BlogPost.id p =? i then q else p) l) = Some q.
Proof.
  intros Hq. induction l as [|a l IH]; simpl; [discriminate|].
  destruct (BlogPost.id a =? i) eqn:E; simpl.
  - intros _. rewrite Hq, Z.eqb_refl. reflexivity.
  - rewrite E. exact IH.
Qed.

Lemma find_replace_other (l : list BlogPost.t) (i j : Z) (q : BlogPost.t) :
  BlogPost.id q = i -> j <> i ->
  find (fun p => BlogPost.id p =? j)
       (map (fun p => if BlogPost.id p =? i then q else p) l)
  = find (fun p => BlogPost.id p =? j) l.
Proof.
  intros Hq Hji. induction l as [|a l IH]; simpl; [reflexivity|].
  destruct (BlogPost.id a =? i) eqn:E; simpl.
  - apply Z.eqb_eq in E.
    replace (BlogPost.id q =? j) with false by (symmetry; apply Z.eqb_neq; lia).
    replace (BlogPost.id a =? j) with false by (symmetry; apply Z.eqb_neq; lia).
    exact IH.
  - rewrite IH. reflexivity.
Qed.

(** C9.  [edit_post] by the administrator on a stored post either leaves the
    state as it is, or stores under the same id a row whose title, subtitle,
    image URL, author and body are those of the form.  Either way the row
    keeps its id and its date stamp; every other post id resolves to the same
    row as before; the number of posts, the users, the comments and the
    session are unchanged. *)
Theorem edit_post_keeps_date_and_frame (st : State) (post_id : Z) (m : Method)
  (edit_form : CreatePostForm.t) (post : BlogPost.t) :
  is_admin (current_user st) = true ->
  BlogPost_query_get (db st) post_id = Some post ->
  let st' := after (edit_post post_id m edit_form st) in
  (exists post',
      BlogPost_query_get (db st') post_id = Some post' /\
      BlogPost.id post' = BlogPost.id post /\
      BlogPost.date post' = BlogPost.date post /\
      (st' = st \/
       (BlogPost.title post' = CreatePostForm.title edit_form /\
        BlogPost.subtitle post' = CreatePostForm.subtitle edit_form /\
        BlogPost.img_url post' = CreatePostForm.img_url edit_form /\
        BlogPost.author_id post' = CreatePostForm.author edit_form /\
        BlogPost.body post' = CreatePostForm.body edit_form))) /\
  (forall j, j <> post_id ->
      BlogPost_query_get (db st') j = BlogPost_query_get (db st) j) /\
  List.length (list_posts st') = List.length (list_posts st) /\
  users (db st') = users (db st) /\
  comments (db st') = comments (db st) /\
  session st' = session st.
Proof.
  intros Hadm Hget. unfold edit_post.
  rewrite admin_only_pass by assumption.
  unfold edit_post_body. rewrite Hget.
  pose proof (find_post_id _ _ _ Hget) as Hid.
  assert (Hsame : (exists post',
      BlogPost_query_get (db st) post_id = Some post' /\
      BlogPost.id post' = BlogPost.id post /\
      BlogPost.date post' = BlogPost.date post /\
      (st = st \/
       (BlogPost.title post' = CreatePostForm.title edit_form /\
        BlogPost.subtitle post' = CreatePostForm.subtitle edit_form /\
        BlogPost.img_url post' = CreatePostForm.img_url edit_form /\
        BlogPost.author_id post' = CreatePostForm.author edit_form /\
        BlogPost.body post' = CreatePostForm.body edit_form))) /\
    (forall j, j <> post_id ->
      BlogPost_query_get (db st) j = BlogPost_query_get (db st) j) /\
    List.length (list_posts st) = List.length (list_posts st) /\
    users (db st) = users (db st) /\
    comments (db st) = comments (db st) /\
    session st = session st).
  { split; [exists post; repeat split; [assumption | now left] | repeat split]. }
  destruct (validate_on_submit m (CreatePostForm.validate edit_form));
    [|exact Hsame].
  unfold update_post.
  destruct (existsb _ (blog_posts (db st))); [exact Hsame|].
  clear Hsame. cbn -[Z.eqb].
  unfold BlogPost_query_get, list_posts, BlogPost_query_all in *. cbn -[Z.eqb].
  rewrite Hid.
  set (q := set_post_fields post _ _ _ _ _).
  assert (Hq : BlogPost.id q = post_id) by exact Hid.
  split; [|split; [|split]].
  - exists q. split; [now apply find_replace_same with (p := post)|].
    split; [now rewrite Hq|]. split; [reflexivity|].
    right. repeat split.
  - intros j Hj. now apply find_replace_other.
  - now rewrite length_map.
  - repeat split.
Qed.

Lemma edit_post_keeps_date_and_frame_witness :
  is_admin (current_user example_admin_state) = true /\
  BlogPost_query_get (db example_admin_state) 1 = Some example_post /\
  exists post',
    BlogPost_query_get
      (db (after (edit_post 1 POST
                    (CreatePostForm.mk "Bye" "s" "i" (Some 1) "b" true)
                    example_admin_state))) 1 = Some post' /\
    BlogPost.date post' = "November 03, 2026".
Proof.
  split; [reflexivity|]. split; [reflexivity|].
  destruct (edit_post_keeps_date_and_frame example_admin_state 1 POST
              (CreatePostForm.mk "Bye" "s" "i" (Some 1) "b" true) example_post
              eq_refl eq_refl) as [[post' [Hget [_ [Hdate _]]]] _].
  exists post'. split; [exact Hget | exact Hdate].
Defined.

(** The same edit, run: the title is replaced and the date is kept. *)
Example edit_post_example :
  list_posts (after (edit_post 1 POST
                       (CreatePostForm.mk "Bye" "s" "i" (Some 1) "b" true)
                       example_admin_state))
  = [BlogPost.mk 1 (Some 1) "Bye" "s" "November 03, 2026" "b" "i"].
Proof. reflexivity. Qed.

Section Accounts.

Variable generate_password_hash : string -> string -> string.
Variable check_password_hash : string -> string -> bool.

(** ** Registration *)

(** C2.  A submitted, valid registration whose email a stored user already
    has is answered with the redirect to the login page and changes
    nothing.  One whose email no stored user has is answered with the
    redirect to the post listing and appends exactly one user row, with
    that email, the hash of the password and the name; a later valid
    registration with the same email is then turned away in the same way,
    leaving the rows as they are. *)
Theorem register_once_per_email (st : State) (m : Method)
  (reg_form : RegisterForm.t) (salt : string) :
  validate_on_submit m (RegisterForm.validate reg_form) = true ->
  let o := register generate_password_hash m reg_form salt st in
  ((exists u, In u (users (db st)) /\
              User.email u = RegisterForm.email reg_form) ->
     response o = redirect ep_login /\
     after o = st /\
     users (db (after o)) = users (db st)) /\
  ((forall u, In u (users (db st)) ->
              User.email u <> RegisterForm.email reg_form) ->
     response o = redirect ep_get_all_posts /\
     (exists new_user,
         users (db (after o)) = users (db st) ++ [new_user] /\
         User.email new_user = RegisterForm.email reg_form /\
         User.password new_user =
           generate_password_hash (RegisterForm.password reg_form) salt /\
         User.name new_user = RegisterForm.name reg_form /\
         session (after o) = Some (User.id new_user)) /\
     blog_posts (db (after o)) = blog_posts (db st) /\
     comments (db (after o)) = comments (db st) /\
     (forall m2 reg_form2 salt2,
         validate_on_submit m2 (RegisterForm.validate reg_form2) = true ->
         RegisterForm.email reg_form2 = RegisterForm.email reg_form ->
         response (register generate_password_hash m2 reg_form2 salt2 (after o)) = redirect ep_login /\
         after (register generate_password_hash m2 reg_form2 salt2 (after o)) = after o)).
Proof.
  intros Hval o. subst o. unfold register. rewrite Hval.
  split.
  - intros [u [Hin He]].
    destruct (User_query_filter_by_email_first (db st)
                (RegisterForm.email reg_form)) eqn:E.
    + simpl. repeat split.
    + exfalso. unfold User_query_filter_by_email_first in E.
      exact (proj1 (find_email_none _ _) E u Hin He).
  - intros Hfresh.
    apply find_email_none in Hfresh.
    assert (Hq : User_query_filter_by_email_first (db st)
                   (RegisterForm.email reg_form) = None) by exact Hfresh.
    rewrite Hq, (insert_user_fresh _ _ _ _ Hq). simpl.
    split; [reflexivity|]. split.
    { eexists. split; [reflexivity|]. simpl. repeat split. }
    split; [reflexivity|]. split; [reflexivity|].
    intros m2 reg_form2 salt2 Hval2 Heq. rewrite Hval2, Heq.
    unfold User_query_filter_by_email_first. simpl.
    rewrite find_app_none by exact Hfresh.
    simpl. rewrite String.eqb_refl. simpl. split; reflexivity.
Qed.

(** ** Authentication *)

(** C3.  For a submitted, valid login form on tables with unique emails:
    [login] answers with the redirect to the post listing exactly when a
    stored user has the email of the form and [check_password_hash]
    accepts the password of the form against the hash stored for that user;
    it then logs that user in.  Otherwise, so when no user has the email or
    the hash does not verify, it renders the login page again and changes
    nothing.  When checking a password against a hash generated from it
    succeeds, logging in with the email and password of a registration
    that has just created a user succeeds. *)
Theorem login_iff_hash_verifies (st : State) (m : Method)
  (login_form : LoginForm.t) :
  unique_emails (db st) ->
  validate_on_submit m (LoginForm.validate login_form) = true ->
  let o := login check_password_hash m login_form st in
  (response o = redirect ep_get_all_posts <->
   exists u, In u (users (db st)) /\
             User.email u = LoginForm.email login_form /\
             check_password_hash (User.password u)
                                 (LoginForm.password login_form) = true) /\
  (forall u, In u (users (db st)) ->
             User.email u = LoginForm.email login_form ->
             check_password_hash (User.password u)
                                 (LoginForm.password login_form) = true ->
             after o = login_user u st) /\
  (response o <> redirect ep_get_all_posts ->
   response o = render_template "login.html" ctx_form /\ after o = st) /\
  ((forall pw salt,
       check_password_hash (generate_password_hash pw salt) pw = true) ->
   forall m1 reg_form salt,
     validate_on_submit m1 (RegisterForm.validate reg_form) = true ->
     (forall u, In u (users (db st)) ->
                User.email u <> RegisterForm.email reg_form) ->
     response (login check_password_hash m
                     (LoginForm.mk (RegisterForm.email reg_form)
                                   (RegisterForm.password reg_form) true)
                     (after (register generate_password_hash m1 reg_form salt st)))
     = redirect ep_get_all_posts).
Proof.
  intros Huniq Hval o.
  assert (Hsub : is_submitted m = true).
  { unfold validate_on_submit in Hval. now apply andb_true_iff in Hval. }
  assert (Hfound : forall u, In u (users (db st)) ->
             User.email u = LoginForm.email login_form ->
             User_query_filter_by_email_first (db st)
               (LoginForm.email login_form) = Some u).
  { intros u Hin He. now apply find_email_unique. }
  subst o. unfold login. rewrite Hval.
  split; [|split; [|split]].
  - split.
    + destruct (User_query_filter_by_email_first (db st)
                  (LoginForm.email login_form)) as [found_user|] eqn:E;
        simpl; [|discriminate].
      destruct (check_password_hash (User.password found_user)
                  (LoginForm.password login_form)) eqn:C;
        simpl; [|discriminate].
      intros _. apply find_email_some in E. exists found_user. tauto.
    + intros [u [Hin [He Hc]]]. rewrite (Hfound u Hin He), Hc. reflexivity.
  - intros u Hin He Hc. rewrite (Hfound u Hin He), Hc. reflexivity.
  - destruct (User_query_filter_by_email_first (db st)
                (LoginForm.email login_form)) as [found_user|];
      simpl; [|split; reflexivity].
    destruct (check_password_hash (User.password found_user)
                (LoginForm.password login_form));
      simpl; [intros H; now elim H | split; reflexivity].
  - intros Hround m1 reg_form salt Hval1 Hfresh.
    unfold register. rewrite Hval1.
    apply find_email_none in Hfresh.
    assert (Hq : User_query_filter_by_email_first (db st)
                   (RegisterForm.email reg_form) = None) by exact Hfresh.
    rewrite Hq, (insert_user_fresh _ _ _ _ Hq). simpl.
    unfold validate_on_submit. rewrite Hsub. simpl.
    unfold User_query_filter_by_email_first. simpl.
    rewrite find_app_none by exact Hfresh.
    simpl. rewrite String.eqb_refl. simpl.
    rewrite Hround. reflexivity.
Qed.

End Accounts.

Lemma prefix_append (a b : string) : String.prefix a (String.append a b) = true.
Proof.
  induction a as [|c a IH]; simpl.
  - destruct b; reflexivity.
  - destruct (Ascii.ascii_dec c c) as [_|Hne]; [exact IH | now elim Hne].
Qed.

Lemma example_check_generate (pw salt : string) :
  example_check (example_generate pw salt) pw = true.
Proof.
  unfold example_check, example_generate. apply prefix_append.
Qed.

Lemma example_unique_emails : unique_emails (db example_anonymous_state).
Proof.
  unfold unique_emails. simpl.
  repeat constructor; simpl; intuition discriminate.
Qed.

Lemma register_once_per_email_witness :
  (response (register example_generate POST
               (RegisterForm.mk "a@x.com" "other" "A2" true) "s3"
               example_anonymous_state) = redirect ep_login /\
   users (db (after (register example_generate POST
               (RegisterForm.mk "a@x.com" "other" "A2" true) "s3"
               example_anonymous_state))) = [example_admin; example_reader]) /\
  (exists new_user,
     users (db (after (register example_generate POST
               (RegisterForm.mk "b@x.com" "pw" "B" true) "s3"
               example_anonymous_state)))
       = [example_admin; example_reader; new_user] /\
     User.email new_user = "b@x.com").
Proof.
  split.
  - destruct (register_once_per_email example_generate example_anonymous_state
                POST (RegisterForm.mk "a@x.com" "other" "A2" true) "s3" eq_refl)
      as [Hdup _].
    destruct Hdup as [Hr [_ Hu]].
    + exists example_reader. split; [right; now left | reflexivity].
    + split; [exact Hr | exact Hu].
  - destruct (register_once_per_email example_generate example_anonymous_state
                POST (RegisterForm.mk "b@x.com" "pw" "B" true) "s3" eq_refl)
      as [_ Hfresh].
    destruct Hfresh as [_ [[new_user [Hu [He _]]] _]].
    + intros u [<- | [<- | []]]; discriminate.
    + exists new_user. split; [exact Hu | exact He].
Defined.

Lemma login_iff_hash_verifies_witness :
  unique_emails (db example_anonymous_state) /\
  response (login example_check POST (LoginForm.mk "a@x.com" "pw" true)
              example_anonymous_state) = redirect ep_get_all_posts /\
  response (login example_check POST (LoginForm.mk "a@x.com" "pW" true)
              example_anonymous_state) = render_template "login.html" ctx_form /\
  response (login example_check POST (LoginForm.mk "b@x.com" "pw" true)
              (after (register example_generate POST
                        (RegisterForm.mk "b@x.com" "pw" "B" true) "s3"
                        example_anonymous_state))) = redirect ep_get_all_posts.
Proof.
  split; [exact example_unique_emails|].
  split; [|split].
  - destruct (login_iff_hash_verifies example_generate example_check
                example_anonymous_state POST (LoginForm.mk "a@x.com" "pw" true)
                example_unique_emails eq_refl) as [Hiff _].
    apply Hiff. exists example_reader.
    split; [right; now left | split; reflexivity].
  - destruct (login_iff_hash_verifies example_generate example_check
                example_anonymous_state POST (LoginForm.mk "a@x.com" "pW" true)
                example_unique_emails eq_refl) as [_ [_ [Hfail _]]].
    apply Hfail. discriminate.
  - destruct (login_iff_hash_verifies example_generate example_check
                example_anonymous_state POST (LoginForm.mk "a@x.com" "pw" true)
                example_unique_emails eq_refl) as [_ [_ [_ Hround]]].
    apply (Hround example_check_generate POST
             (RegisterForm.mk "b@x.com" "pw" "B" true) "s3" eq_refl).
    intros u [<- | [<- | []]]; discriminate.
Defined.

(** ** Reachable states *)

Section Reachability.

Variable generate_password_hash : string -> string -> string.
Variable check_password_hash : string -> string -> bool.

Local Abbreviation handle := (handle generate_password_hash check_password_hash).
Local Abbreviation reachable := (reachable generate_password_hash check_password_hash).
Local Abbreviation run := (run generate_password_hash check_password_hash).

Lemma admin_only_commits (function : State -> Outcome) (st : State) :
  commits st (db (after (function st))) ->
  commits st (db (after (admin_only function st))).
Proof.
  intros H. unfold admin_only.
  destruct (negb _ || _); [exact (commits_nothing _) | exact H].
Qed.

Lemma route_commits (allowed : Method -> bool) (m : Method)
  (view : State -> Outcome) (st : State) :
  (allowed m = true -> commits st (db (after (view st)))) ->
  commits st (db (after (route allowed m view st))).
Proof.
  intros H. unfold route.
  destruct (allowed m); [now apply H | exact (commits_nothing _)].
Qed.

Lemma int_route_commits (post_id : Z) (k : State -> Outcome) (st : State) :
  commits st (db (after (k st))) ->
  commits st (db (after (int_route post_id k st))).
Proof.
  intros H. unfold int_route.
  destruct (0 <=? post_id); [exact H | exact (commits_nothing _)].
Qed.

Lemma handle_commits (m : Method) (r : Request) (st : State) :
  commits st (db (after (handle m r st))).
Proof.
  destruct r; simpl;
    repeat (apply int_route_commits); apply route_commits; intros Hm.
  - exact (commits_nothing _).
  - unfold register.
    destruct (validate_on_submit _ _); [|exact (commits_nothing _)].
    destruct (User_query_filter_by_email_first _ _); [exact (commits_nothing _)|].
    destruct (insert_user _ _ _ _) as [[new_user d]|e] eqn:E;
      [|exact (commits_nothing _)].
    simpl. eapply commits_user. exact E.
  - unfold login.
    destruct (validate_on_submit _ _); [|exact (commits_nothing _)].
    destruct (User_query_filter_by_email_first _ _); [|exact (commits_nothing _)].
    destruct (negb _); exact (commits_nothing _).
  - exact (commits_nothing _).
  - unfold show_post.
    destruct (validate_on_submit _ _); [|exact (commits_nothing _)].
    destruct (current_user st) as [cu|] eqn:E; [|exact (commits_nothing _)].
    simpl. now apply commits_comment.
  - exact (commits_nothing _).
  - exact (commits_nothing _).
  - apply admin_only_commits. unfold add_new_post_body.
    destruct (validate_on_submit _ _); [|exact (commits_nothing _)].
    destruct (current_user st) as [cu|] eqn:E; [|exact (commits_nothing _)].
    destruct (insert_post _ _ _ _ _ _ _) as [d|e] eqn:I;
      [|exact (commits_nothing _)].
    simpl. eapply commits_post; [exact E | exact I].
  - apply admin_only_commits. unfold edit_post_body.
    destruct (BlogPost_query_get _ _); [|exact (commits_nothing _)].
    replace (validate_on_submit m (CreatePostForm.validate edit_form))
      with false; [exact (commits_nothing _)|].
    unfold validate_on_submit. destruct m; try discriminate; reflexivity.
  - apply admin_only_commits. unfold delete_post_body.
    destruct (BlogPost_query_get _ _); [|exact (commits_nothing _)].
    simpl. apply commits_delete.
Qed.

(** No request changes a stored post through [edit_post]: its route is
    declared without [methods], so it answers GET and HEAD only, and for
    those [validate_on_submit] is false. *)
Lemma edit_route_never_updates (m : Method) (post_id : Z)
  (edit_form : CreatePostForm.t) (st : State) :
  after (handle m (req_edit_post post_id edit_form) st) = st.
Proof.
  simpl. unfold int_route, route, edit_post, admin_only, edit_post_body.
  destruct (0 <=? post_id); [|reflexivity].
  destruct (get_only m) eqn:Hm; [|reflexivity].
  destruct (negb _ || _); [reflexivity|].
  destruct (BlogPost_query_get _ _); [|reflexivity].
  replace (validate_on_submit m (CreatePostForm.validate edit_form))
    with false; [reflexivity|].
  unfold validate_on_submit. destruct m; try discriminate; reflexivity.
Qed.

Lemma run_reachable (reqs : list (Method * Request)) (st : State) :
  reachable st -> reachable (run reqs st).
Proof.
  revert st. induction reqs as [|[m r] reqs IH]; simpl; intros st H.
  - exact H.
  - apply IH. now constructor.
Qed.

Lemma reachable_invariant (P : Database -> Prop) :
  P (db initial) ->
  (forall st d, P (db st) -> commits st d -> P d) ->
  forall st, reachable st -> P (db st).
Proof.
  intros Hinit Hstep st H. induction H as [|st m r H IH].
  - exact Hinit.
  - exact (Hstep st _ IH (handle_commits m r st)).
Qed.

(** *** Invariants of the reachable states *)

Lemma commits_unique_emails (st : State) (d : Database) :
  unique_emails (db st) -> commits st d -> unique_emails d.
Proof.
  intros Hu Hc. destruct Hc as [| e pw n u d Hins | | t s b i cu today d _ Hins |].
  - exact Hu.
  - exact (insert_user_unique_emails _ _ _ _ _ _ Hu Hins).
  - exact Hu.
  - unfold insert_post in Hins. destruct (existsb _ _); [discriminate|].
    injection Hins as <-. exact Hu.
  - exact Hu.
Qed.

(** The emails of the stored users are pairwise different in every
    reachable state. *)
Lemma reachable_unique_emails (st : State) :
  reachable st -> unique_emails (db st).
Proof.
  apply (reachable_invariant unique_emails).
  - constructor.
  - exact commits_unique_emails.
Qed.

Lemma authors_valid_iff (d : Database) :
  authors_valid d = true <->
  (forall c, In c (comments d) ->
             user_exists d (Comment.comment_author_id c) = true) /\
  (forall p, In p (blog_posts d) ->
             user_exists d (BlogPost.author_id p) = true).
Proof.
  unfold authors_valid. rewrite andb_true_iff, !forallb_forall. tauto.
Qed.

Lemma user_exists_mono (d d' : Database) (l : list User.t) (ref : option Z) :
  users d' = users d ++ l ->
  user_exists d ref = true -> user_exists d' ref = true.
Proof.
  intros Hus. unfold user_exists. destruct ref as [i|]; [|discriminate].
  rewrite Hus, existsb_app. intros ->. reflexivity.
Qed.

Lemma current_user_exists (st : State) (cu : User.t) :
  current_user st = Some cu ->
  user_exists (db st) (Some (User.id cu)) = true.
Proof.
  unfold current_user, load_user, User_query_get.
  destruct (session st) as [i|]; [|discriminate].
  intros H. apply find_some in H. destruct H as [Hin Hid].
  simpl. apply existsb_exists. exists cu. split; [assumption|].
  apply Z.eqb_refl.
Qed.

Lemma commits_authors_valid (st : State) (d : Database) :
  authors_valid (db st) = true -> commits st d -> authors_valid d = true.
Proof.
  intros Hv Hc. apply authors_valid_iff in Hv. destruct Hv as [Hcs Hps].
  destruct Hc as [| e pw n u d Hins | text cu post_id Hcu
                  | t s b i cu today d Hcu Hins | post].
  - apply authors_valid_iff. split; assumption.
  - unfold insert_user in Hins. destruct (existsb _ _); [discriminate|].
    injection Hins as <- <-. apply authors_valid_iff. simpl.
    split; intros x Hin;
      (eapply user_exists_mono; [reflexivity | auto]).
  - apply authors_valid_iff. unfold insert_comment. simpl. split.
    + intros c Hin. apply in_app_or in Hin. destruct Hin as [Hin | [<- | []]].
      * exact (Hcs c Hin).
      * simpl. exact (current_user_exists st cu Hcu).
    + exact Hps.
  - unfold insert_post in Hins. destruct (existsb _ _); [discriminate|].
    injection Hins as <-. apply authors_valid_iff. simpl. split.
    + exact Hcs.
    + intros p Hin. apply in_app_or in Hin. destruct Hin as [Hin | [<- | []]].
      * exact (Hps p Hin).
      * simpl. exact (current_user_exists st cu Hcu).
  - apply authors_valid_iff. unfold delete_row. simpl. split.
    + intros c Hin. apply in_map_iff in Hin. destruct Hin as [x [<- Hin]].
      destruct (Z_option_eqb _ _); simpl; exact (Hcs x Hin).
    + intros p Hin. apply filter_In in Hin. exact (Hps p (proj1 Hin)).
Qed.

(** The author references are valid in every reachable state: the author
    of every comment and of every post is a stored user. *)
Lemma reachable_authors_valid (st : State) :
  reachable st -> authors_valid (db st) = true.
Proof.
  apply (reachable_invariant (fun d => authors_valid d = true)).
  - reflexivity.
  - exact commits_authors_valid.
Qed.

(** C5 (the code departs from it).  The first user registers, which logs
    them in, and submits a comment for post 7 while no post is stored: the
    state reached holds one comment, written by a stored user, and no post
    at all, so the comment has no valid parent post and referential
    integrity does not hold in that state. *)
Theorem orphan_comment_reachable :
  reachable (run orphan_comment_trace initial) /\
  List.length (comments (db (run orphan_comment_trace initial))) = 1%nat /\
  blog_posts (db (run orphan_comment_trace initial)) = [] /\
  authors_valid (db (run orphan_comment_trace initial)) = true /\
  parents_valid (db (run orphan_comment_trace initial)) = false /\
  referential_integrity (db (run orphan_comment_trace initial)) = false.
Proof.
  split; [apply run_reachable; constructor|].
  repeat split.
Qed.

(** Deleting a post that has a comment reaches a state without referential
    integrity as well: the comment stays while its post is gone. *)
Lemma delete_orphans_comments :
  reachable (run delete_commented_trace initial) /\
  List.length (comments (db (run delete_commented_trace initial))) = 1%nat /\
  blog_posts (db (run delete_commented_trace initial)) = [] /\
  referential_integrity (db (run delete_commented_trace initial)) = false.
Proof.
  split; [apply run_reachable; constructor|].
  repeat split.
Qed.

End Reachability.

(** ** Keys *)

Lemma fold_max_upper (l : list Z) (x : Z) :
  In x l -> x <= fold_right Z.max 0 l.
Proof.
  induction l as [|a l IH]; simpl; [contradiction|].
  intros [-> | Hin]; [lia | specialize (IH Hin); lia].
Qed.

Lemma fold_max_nonneg (l : list Z) : 0 <= fold_right Z.max 0 l.
Proof.
  induction l as [|a l IH]; simpl; lia.
Qed.

(** A new key is positive and is the key of no row of the table. *)
Lemma next_id_fresh (l : list Z) : ~ In (next_id l) l.
Proof.
  intros Hin. apply fold_max_upper in Hin. unfold next_id in Hin. lia.
Qed.

Lemma next_id_positive (l : list Z) : 1 <= next_id l.
Proof.
  unfold next_id. pose proof (fold_max_nonneg l). lia.
Qed.

Lemma next_id_above (l : list Z) (x : Z) : In x l -> x < next_id l.
Proof.
  intros Hin. apply fold_max_upper in Hin. unfold next_id. lia.
Qed.

Lemma keys_snoc (l : list Z) :
  NoDup l /\ Forall (fun i => 1 <= i) l ->
  NoDup (l ++ [next_id l]) /\ Forall (fun i => 1 <= i) (l ++ [next_id l]).
Proof.
  intros [Hnd Hpos]. split.
  - apply NoDup_app; [assumption | repeat constructor; simpl; tauto |].
    intros a Hin [<- | []]. exact (next_id_fresh l Hin).
  - apply Forall_app. split; [assumption|].
    constructor; [apply next_id_positive | constructor].
Qed.

Lemma NoDup_map_filter {A B : Type} (f : A -> B) (keep : A -> bool) (l : list A) :
  NoDup (map f l) -> NoDup (map f (filter keep l)).
Proof.
  induction l as [|a l IH]; simpl; intros Hnd; [constructor|].
  inversion Hnd as [|x xs Hnotin Hnd']; subst x xs.
  destruct (keep a); simpl; [|now apply IH].
  constructor; [|now apply IH].
  intros Hin. apply Hnotin. apply in_map_iff in Hin.
  destruct Hin as [x [Hx Hin]]. apply filter_In in Hin.
  apply in_map_iff. exists x. tauto.
Qed.

Lemma Forall_map_filter {A B : Type} (P : B -> Prop) (f : A -> B)
  (keep : A -> bool) (l : list A) :
  Forall P (map f l) -> Forall P (map f (filter keep l)).
Proof.
  rewrite !Forall_forall. intros H y Hin. apply H.
  apply in_map_iff in Hin. destruct Hin as [x [Hx Hin]].
  apply filter_In in Hin. apply in_map_iff. exists x. tauto.
Qed.

Lemma delete_row_comment_ids (d : Database) (post : BlogPost.t) :
  map Comment.id (comments (delete_row d post)) = map Comment.id (comments d).
Proof.
  unfold delete_row. simpl. rewrite map_map. apply map_ext.
  intros c. destruct (Z_option_eqb _ _); reflexivity.
Qed.

Lemma commits_primary_keys (st : State) (d : Database) :
  primary_keys (db st) -> commits st d -> primary_keys d.
Proof.
  intros [Hu [Hp Hc]] Hcommit.
  destruct Hcommit as [| e pw n u d Hins | text cu post_id Hcu
                       | t s b i cu today d Hcu Hins | post].
  - repeat split; tauto.
  - unfold insert_user in Hins. destruct (existsb _ _); [discriminate|].
    injection Hins as <- <-. unfold primary_keys. simpl.
    rewrite map_app. simpl. split; [now apply keys_snoc | tauto].
  - unfold primary_keys, insert_comment. simpl.
    rewrite map_app. simpl. split; [tauto|]. split; [tauto|].
    now apply keys_snoc.
  - unfold insert_post in Hins. destruct (existsb _ _); [discriminate|].
    injection Hins as <-. unfold primary_keys. simpl.
    rewrite map_app. simpl. split; [tauto|]. split; [now apply keys_snoc | tauto].
  - unfold primary_keys. rewrite delete_row_comment_ids.
    split; [exact Hu|]. split; [|exact Hc].
    unfold delete_row. simpl. destruct Hp as [Hnd Hpos].
    split; [now apply NoDup_map_filter | now apply Forall_map_filter].
Qed.

Lemma commits_unique_titles (st : State) (d : Database) :
  unique_titles (db st) -> commits st d -> unique_titles d.
Proof.
  unfold unique_titles. intros Ht Hcommit.
  destruct Hcommit as [| e pw n u d Hins | text cu post_id Hcu
                       | t s b i cu today d Hcu Hins | post].
  - exact Ht.
  - unfold insert_user in Hins. destruct (existsb _ _); [discriminate|].
    injection Hins as <- <-. exact Ht.
  - exact Ht.
  - unfold insert_post in Hins.
    destruct (existsb _ _) eqn:E; [discriminate|].
    injection Hins as <-. simpl. rewrite map_app. simpl.
    apply NoDup_app; [assumption | repeat constructor; simpl; tauto |].
    intros a Hin [<- | []].
    apply in_map_iff in Hin. destruct Hin as [p [Hp Hin]].
    rewrite (existsb_title _ _ p Hin Hp) in E. discriminate.
  - unfold delete_row. simpl. now apply NoDup_map_filter.
Qed.

(** ** What no request undoes *)

Lemma commits_users (st : State) (d : Database) :
  commits st d ->
  exists l, users d = users (db st) ++ l /\ (List.length l <= 1)%nat.
Proof.
  intros Hcommit.
  destruct Hcommit as [| e pw n u d Hins | text cu post_id Hcu
                       | t s b i cu today d Hcu Hins | post].
  - exists []. rewrite app_nil_r. split; [reflexivity | simpl; lia].
  - unfold insert_user in Hins. destruct (existsb _ _); [discriminate|].
    injection Hins as <- <-. exists [User.mk (next_id (map User.id (users (db st)))) e pw n].
    split; [reflexivity | simpl; lia].
  - exists []. simpl. rewrite app_nil_r. split; [reflexivity | simpl; lia].
  - unfold insert_post in Hins. destruct (existsb _ _); [discriminate|].
    injection Hins as <-. exists []. simpl. rewrite app_nil_r.
    split; [reflexivity | simpl; lia].
  - exists []. simpl. rewrite app_nil_r. split; [reflexivity | simpl; lia].
Qed.

Lemma commits_comments (st : State) (d : Database) :
  commits st d ->
  exists l, map comment_content (comments d)
            = map comment_content (comments (db st)) ++ l
            /\ (List.length l <= 1)%nat.
Proof.
  intros Hcommit.
  destruct Hcommit as [| e pw n u d Hins | text cu post_id Hcu
                       | t s b i cu today d Hcu Hins | post].
  - exists []. rewrite app_nil_r. split; [reflexivity | simpl; lia].
  - unfold insert_user in Hins. destruct (existsb _ _); [discriminate|].
    injection Hins as <- <-. exists []. simpl. rewrite app_nil_r.
    split; [reflexivity | simpl; lia].
  - eexists [_]. unfold insert_comment. simpl. rewrite map_app. simpl.
    split; [reflexivity | simpl; lia].
  - unfold insert_post in Hins. destruct (existsb _ _); [discriminate|].
    injection Hins as <-. exists []. simpl. rewrite app_nil_r.
    split; [reflexivity | simpl; lia].
  - exists []. rewrite app_nil_r. split; [|simpl; lia].
    unfold delete_row. simpl. rewrite map_map. apply map_ext.
    intros c. destruct (Z_option_eqb _ _); reflexivity.
Qed.

(** ** Lookups by key *)

Lemma find_snoc_fresh {A : Type} (key : A -> Z) (l : list A) (x : A) :
  ~ In (key x) (map key l) ->
  find (fun a => key a =? key x) (l ++ [x]) = Some x.
Proof.
  intros Hfresh. rewrite find_app_none.
  - simpl. rewrite Z.eqb_refl. reflexivity.
  - induction l as [|a l IH]; simpl; [reflexivity|].
    destruct (key a =? key x) eqn:E.
    + apply Z.eqb_eq in E. exfalso. apply Hfresh. left. exact E.
    + apply IH. intros Hin. apply Hfresh. right. exact Hin.
Qed.

Lemma find_snoc_other {A : Type} (key : A -> Z) (l : list A) (x : A) (j : Z) :
  j <> key x ->
  find (fun a => key a =? j) (l ++ [x]) = find (fun a => key a =? j) l.
Proof.
  intros Hj. induction l as [|a l IH]; simpl.
  - replace (key x =? j) with false by (symmetry; apply Z.eqb_neq; lia).
    reflexivity.
  - destruct (key a =? j); [reflexivity | exact IH].
Qed.

Lemma find_key_unique {A : Type} (key : A -> Z) (l : list A) (x : A) :
  NoDup (map key l) -> In x l ->
  find (fun a => key a =? key x) l = Some x.
Proof.
  induction l as [|a l IH]; simpl; intros Hnd Hin; [contradiction|].
  inversion Hnd as [|y ys Hnotin Hnd']; subst y ys.
  destruct Hin as [-> | Hin].
  - rewrite Z.eqb_refl. reflexivity.
  - destruct (key a =? key x) eqn:E.
    + apply Z.eqb_eq in E. exfalso. apply Hnotin. rewrite E. now apply in_map.
    + now apply IH.
Qed.

Lemma find_filter_same {A : Type} (key : A -> Z) (l : list A) (i : Z) :
  find (fun a => key a =? i) (filter (fun a => negb (key a =? i)) l) = None.
Proof.
  induction l as [|a l IH]; simpl; [reflexivity|].
  destruct (key a =? i) eqn:E; simpl; [exact IH|].
  rewrite E. exact IH.
Qed.

Lemma find_filter_other {A : Type} (key : A -> Z) (l : list A) (i j : Z) :
  j <> i ->
  find (fun a => key a =? j) (filter (fun a => negb (key a =? i)) l)
  = find (fun a => key a =? j) l.
Proof.
  intros Hj. induction l as [|a l IH]; simpl; [reflexivity|].
  destruct (key a =? i) eqn:E; simpl.
  - apply Z.eqb_eq in E.
    replace (key a =? j) with false by (symmetry; apply Z.eqb_neq; lia).
    exact IH.
  - destruct (key a =? j); [reflexivity | exact IH].
Qed.

Lemma filter_key_absent {A : Type} (key : A -> Z) (l : list A) (i : Z) :
  ~ In i (map key l) -> filter (fun a => negb (key a =? i)) l = l.
Proof.
  induction l as [|a l IH]; simpl; intros Hni; [reflexivity|].
  destruct (key a =? i) eqn:E; simpl.
  - apply Z.eqb_eq in E. exfalso. apply Hni. now left.
  - rewrite IH; [reflexivity|]. intros Hin. apply Hni. now right.
Qed.

Lemma length_filter_key {A : Type} (key : A -> Z) (l : list A) (x : A) :
  NoDup (map key l) -> In x l ->
  S (List.length (filter (fun a => negb (key a =? key x)) l)) = List.length l.
Proof.
  induction l as [|a l IH]; simpl; intros Hnd Hin; [contradiction|].
  inversion Hnd as [|y ys Hnotin Hnd']; subst y ys.
  destruct Hin as [-> | Hin].
  - rewrite Z.eqb_refl. simpl. rewrite filter_key_absent by exact Hnotin.
    reflexivity.
  - destruct (key a =? key x) eqn:E; simpl.
    + apply Z.eqb_eq in E. exfalso. apply Hnotin. rewrite E. now apply in_map.
    + rewrite IH by assumption. reflexivity.
Qed.

Lemma insert_user_ok (d d' : Database) (e pw n : string) (u : User.t) :
  insert_user d e pw n = Ok (u, d') ->
  u = User.mk (next_id (map User.id (users d))) e pw n /\
  d' = mkDatabase (users d ++ [u]) (blog_posts d) (comments d).
Proof.
  unfold insert_user. destruct (existsb _ _); [discriminate|].
  intros H. injection H as <- <-. split; reflexivity.
Qed.

Lemma not_submitted (m : Method) (v : bool) :
  is_submitted m = false -> validate_on_submit m v = false.
Proof.
  unfold validate_on_submit. intros ->. reflexivity.
Qed.

Lemma is_admin_id (st : State) :
  is_admin (current_user st) = true ->
  exists cu, current_user st = Some cu /\ User.id cu = 1.
Proof.
  unfold is_admin. destruct (current_user st) as [cu|]; [|discriminate].
  intros H. exists cu. split; [reflexivity | now apply Z.eqb_eq].
Qed.

Lemma session_valid_current_user (st : State) (i : Z) :
  session_valid st -> session st = Some i ->
  exists u, current_user st = Some u /\ User.id u = i /\ In u (users (db st)).
Proof.
  unfold session_valid, current_user, load_user, User_query_get.
  intros Hv Hs. rewrite Hs in *. simpl in Hv.
  destruct (find (fun u => User.id u =? i) (users (db st))) as [u|] eqn:E.
  - apply find_some in E. exists u.
    split; [reflexivity|]. split; [now apply Z.eqb_eq | tauto].
  - apply existsb_exists in Hv. destruct Hv as [x [Hin Hx]].
    pose proof (find_none _ _ E x Hin) as Hn. simpl in Hn.
    rewrite Hx in Hn. discriminate.
Qed.

(** ** Writing, commenting and deleting *)

(** A submitted, valid post form whose title no stored post has, sent by the
    administrator: [add_new_post] redirects to the listing and appends one
    post, with the four fields of the form, the date of the day and the
    administrator as author; [query.get] finds the new post under its id;
    users, comments and session are as before. *)
Theorem add_new_post_appends (st : State) (m : Method)
  (form : CreatePostForm.t) (today : string) :
  is_admin (current_user st) = true ->
  validate_on_submit m (CreatePostForm.validate form) = true ->
  (forall p, In p (blog_posts (db st)) ->
             BlogPost.title p <> CreatePostForm.title form) ->
  response (add_new_post m form today st) = redirect ep_get_all_posts /\
  exists new_post,
    list_posts (after (add_new_post m form today st))
      = list_posts st ++ [new_post] /\
    BlogPost.title new_post = CreatePostForm.title form /\
    BlogPost.subtitle new_post = CreatePostForm.subtitle form /\
    BlogPost.body new_post = CreatePostForm.body form /\
    BlogPost.img_url new_post = CreatePostForm.img_url form /\
    BlogPost.date new_post = today /\
    BlogPost.author_id new_post = Some 1 /\
    BlogPost_query_get (db (after (add_new_post m form today st)))
                       (BlogPost.id new_post) = Some new_post /\
    users (db (after (add_new_post m form today st))) = users (db st) /\
    comments (db (after (add_new_post m form today st))) = comments (db st) /\
    session (after (add_new_post m form today st)) = session st.
Proof.
  intros Hadm Hval Hfresh. unfold add_new_post.
  rewrite admin_only_pass by assumption.
  destruct (is_admin_id st Hadm) as [cu [Hcu Hid]].
  unfold add_new_post_body, insert_post. rewrite Hval, Hcu.
  replace (existsb _ (blog_posts (db st))) with false.
  - simpl. split; [reflexivity|]. eexists. split; [reflexivity|]. simpl.
    rewrite Hid. repeat split.
    unfold BlogPost_query_get. simpl.
    match goal with
    | |- find _ (?l ++ [?x]) = _ =>
        exact (find_snoc_fresh BlogPost.id l x (next_id_fresh _))
    end.
  - symmetry. apply not_true_is_false. intros E.
    apply existsb_exists in E. destruct E as [p [Hin Hp]].
    apply String.eqb_eq in Hp. exact (Hfresh p Hin Hp).
Qed.

Lemma add_new_post_appends_witness :
  is_admin (current_user example_admin_state) = true /\
  exists new_post,
    list_posts (after (add_new_post POST
                         (CreatePostForm.mk "Second" "s" "i" None "b" true)
                         "November 04, 2026" example_admin_state))
      = [example_post; new_post] /\
    BlogPost.date new_post = "November 04, 2026".
Proof.
  split; [reflexivity|].
  destruct (add_new_post_appends example_admin_state POST
              (CreatePostForm.mk "Second" "s" "i" None "b" true)
              "November 04, 2026" eq_refl eq_refl) as [_ [p [Hl [_ [_ [_ [_ [Hd _]]]]]]]].
  - intros p [<- | []]. discriminate.
  - exists p. split; [exact Hl | exact Hd].
Defined.

(** A submitted, valid comment form for a stored post, sent by a logged-in
    user, administrator or not: [show_post] appends one comment, with the
    text of the form, the caller as author and the post as parent, leaves
    users, posts and session as they are, and renders the page of the
    post. *)
Theorem comment_on_post_is_stored (st : State) (post_id : Z) (m : Method)
  (comment_form : CommentForm.t) (cu : User.t) (post : BlogPost.t) :
  current_user st = Some cu ->
  BlogPost_query_get (db st) post_id = Some post ->
  validate_on_submit m (CommentForm.validate comment_form) = true ->
  response (show_post post_id m comment_form st)
    = render_template "post.html" (ctx_post (Some post)) /\
  (exists c,
    comments (db (after (show_post post_id m comment_form st)))
      = comments (db st) ++ [c] /\
    Comment.text c = CommentForm.comment comment_form /\
    Comment.comment_author_id c = Some (User.id cu) /\
    Comment.parent_post_id c = Some post_id /\
    post_exists (db (after (show_post post_id m comment_form st)))
                (Comment.parent_post_id c) = true) /\
  users (db (after (show_post post_id m comment_form st))) = users (db st) /\
  blog_posts (db (after (show_post post_id m comment_form st)))
    = blog_posts (db st) /\
  session (after (show_post post_id m comment_form st)) = session st.
Proof.
  intros Hcu Hget Hval. unfold show_post. rewrite Hcu, Hget, Hval. simpl.
  pose proof (find_post_id _ _ _ Hget) as Hid.
  split; [reflexivity|]. split; [|repeat split].
  eexists. split; [reflexivity|]. simpl. rewrite Hid. repeat split.
  apply existsb_exists. exists post.
  unfold BlogPost_query_get in Hget. apply find_some in Hget. exact Hget.
Qed.

Lemma comment_on_post_is_stored_witness :
  current_user example_reader_state = Some example_reader /\
  BlogPost_query_get (db example_reader_state) 1 = Some example_post /\
  exists c,
    comments (db (after (show_post 1 POST (CommentForm.mk "nice post" true)
                           example_reader_state))) = [c] /\
    Comment.comment_author_id c = Some 2 /\
    Comment.parent_post_id c = Some 1.
Proof.
  split; [reflexivity|]. split; [reflexivity|].
  destruct (comment_on_post_is_stored example_reader_state 1 POST
              (CommentForm.mk "nice post" true) example_reader example_post
              eq_refl eq_refl eq_refl) as [_ [[c [Hc [_ [Ha [Hp _]]]]] _]].
  exists c. split; [exact Hc|]. split; [exact Ha | exact Hp].
Defined.

(** [delete_post] by the administrator on a stored post redirects to the
    listing; afterwards [query.get] finds nothing under that id and what it
    found before under every other id; every comment is still there, with
    its id, text and author, and none of them refers to the deleted post;
    users and session are as before.  With pairwise different post ids the
    listing is one post shorter. *)
Theorem delete_post_removes (st : State) (post_id : Z) (post : BlogPost.t) :
  is_admin (current_user st) = true ->
  BlogPost_query_get (db st) post_id = Some post ->
  response (delete_post post_id st) = redirect ep_get_all_posts /\
  BlogPost_query_get (db (after (delete_post post_id st))) post_id = None /\
  (forall j, j <> post_id ->
     BlogPost_query_get (db (after (delete_post post_id st))) j
     = BlogPost_query_get (db st) j) /\
  (forall c, In c (comments (db (after (delete_post post_id st)))) ->
     Comment.parent_post_id c <> Some post_id) /\
  map comment_content (comments (db (after (delete_post post_id st))))
    = map comment_content (comments (db st)) /\
  users (db (after (delete_post post_id st))) = users (db st) /\
  session (after (delete_post post_id st)) = session st /\
  (NoDup (map BlogPost.id (blog_posts (db st))) ->
   S (List.length (list_posts (after (delete_post post_id st))))
   = List.length (list_posts st)).
Proof.
  intros Hadm Hget. unfold delete_post.
  rewrite admin_only_pass by assumption.
  unfold delete_post_body. rewrite Hget.
  pose proof (find_post_id _ _ _ Hget) as Hid.
  unfold BlogPost_query_get, list_posts, BlogPost_query_all, delete_row in *.
  cbn -[Z.eqb]. rewrite Hid.
  split; [reflexivity|].
  split; [apply (find_filter_same BlogPost.id)|].
  split; [intros j Hj; now apply (find_filter_other BlogPost.id)|].
  split; [|split; [|split; [reflexivity | split; [reflexivity|]]]].
  - intros c Hin. apply in_map_iff in Hin. destruct Hin as [x [<- Hin]].
    destruct (Z_option_eqb (Comment.parent_post_id x) post_id) eqn:E; simpl.
    + discriminate.
    + intros Hp. rewrite Hp in E. simpl in E. rewrite Z.eqb_refl in E.
      discriminate.
  - rewrite map_map. apply map_ext. intros c.
    destruct (Z_option_eqb _ _); reflexivity.
  - intros Hnd. rewrite <- Hid.
    apply (length_filter_key BlogPost.id); [assumption|].
    apply find_some in Hget. tauto.
Qed.

Lemma delete_post_removes_witness :
  is_admin (current_user example_admin_state) = true /\
  BlogPost_query_get (db example_admin_state) 1 = Some example_post /\
  NoDup (map BlogPost.id (blog_posts (db example_admin_state))) /\
  BlogPost_query_get (db (after (delete_post 1 example_admin_state))) 1 = None /\
  List.length (list_posts (after (delete_post 1 example_admin_state))) = 0%nat.
Proof.
  split; [reflexivity|]. split; [reflexivity|].
  assert (Hnd : NoDup (map BlogPost.id (blog_posts (db example_admin_state)))).
  { simpl. repeat constructor. simpl. tauto. }
  split; [exact Hnd|].
  destruct (delete_post_removes example_admin_state 1 example_post
              eq_refl eq_refl) as [_ [Hgone [_ [_ [_ [_ [_ Hlen]]]]]]].
  split; [exact Hgone|].
  apply eq_add_S. exact (Hlen Hnd).
Defined.

(** After [logout] the caller is anonymous whoever they were: the three
    administrator views answer 403 and [show_post] stores nothing, each
    leaving the state as it is; a comment submitted for a post id below
    [2^63] is answered with the redirect to the login page. *)
Theorem logout_drops_privileges (st : State) :
  current_user (after (logout st)) = None /\
  (forall m form today,
     add_new_post m form today (after (logout st))
     = respond (abort 403) (after (logout st))) /\
  (forall post_id m edit_form,
     edit_post post_id m edit_form (after (logout st))
     = respond (abort 403) (after (logout st))) /\
  (forall post_id,
     delete_post post_id (after (logout st))
     = respond (abort 403) (after (logout st))) /\
  (forall post_id m comment_form,
     after (show_post post_id m comment_form (after (logout st)))
       = after (logout st) /\
     (0 <= post_id < 2 ^ 63 ->
      validate_on_submit m (CommentForm.validate comment_form) = true ->
      response (show_post post_id m comment_form (after (logout st)))
        = redirect ep_login)).
Proof.
  assert (Hanon : current_user (after (logout st)) = None) by reflexivity.
  split; [exact Hanon|].
  unfold add_new_post, edit_post, delete_post.
  split; [intros; apply admin_only_reject; rewrite Hanon; reflexivity|].
  split; [intros; apply admin_only_reject; rewrite Hanon; reflexivity|].
  split; [intros; apply admin_only_reject; rewrite Hanon; reflexivity|].
  intros post_id m comment_form. unfold show_post. rewrite Hanon. split.
  - destruct (validate_on_submit _ _); reflexivity.
  - intros _ Hval. rewrite Hval. reflexivity.
Qed.

Lemma logout_drops_privileges_witness :
  is_admin (current_user example_admin_state) = true /\
  0 <= 1 < 2 ^ 63 /\
  response (delete_post 1 (after (logout example_admin_state))) = abort 403 /\
  response (show_post 1 POST (CommentForm.mk "nice post" true)
              (after (logout example_admin_state))) = redirect ep_login.
Proof.
  assert (Hrange : 0 <= 1 < 2 ^ 63) by (split; [discriminate | reflexivity]).
  split; [reflexivity|]. split; [exact Hrange|].
  destruct (logout_drops_privileges example_admin_state)
    as [_ [_ [_ [Hdel Hcom]]]].
  split.
  - rewrite Hdel. reflexivity.
  - exact (proj2 (Hcom 1 POST (CommentForm.mk "nice post" true)) Hrange eq_refl).
Defined.

(** When the post that [delete_post] deletes has a comment, the comment is
    left behind without a parent post: referential integrity does not hold
    in the state after the deletion. *)
Theorem delete_commented_post_orphans (st : State) (post_id : Z)
  (post : BlogPost.t) (c : Comment.t) :
  is_admin (current_user st) = true ->
  BlogPost_query_get (db st) post_id = Some post ->
  In c (comments (db st)) ->
  Comment.parent_post_id c = Some post_id ->
  In (Comment.mk (Comment.id c) (Comment.text c) (Comment.comment_author_id c) None)
     (comments (db (after (delete_post post_id st)))) /\
  parents_valid (db (after (delete_post post_id st))) = false /\
  referential_integrity (db (after (delete_post post_id st))) = false.
Proof.
  intros Hadm Hget Hin Hparent. unfold delete_post.
  rewrite admin_only_pass by assumption.
  unfold delete_post_body. rewrite Hget.
  pose proof (find_post_id _ _ _ Hget) as Hid.
  assert (Horphan :
    In (Comment.mk (Comment.id c) (Comment.text c) (Comment.comment_author_id c) None)
       (comments (delete_row (db st) post))).
  { unfold delete_row. simpl. apply in_map_iff. exists c.
    split; [|assumption].
    rewrite Hparent, Hid. simpl. rewrite Z.eqb_refl. reflexivity. }
  assert (Hpv : parents_valid (delete_row (db st) post) = false).
  { apply not_true_is_false. intros Hv. unfold parents_valid in Hv.
    rewrite forallb_forall in Hv. specialize (Hv _ Horphan). discriminate. }
  simpl. split; [exact Horphan|]. split; [exact Hpv|].
  unfold referential_integrity. rewrite Hpv. apply andb_false_r.
Qed.

Lemma delete_commented_post_orphans_witness :
  is_admin (current_user (mkState (db example_run) (Some 1))) = true /\
  referential_integrity (db example_run) = true /\
  referential_integrity
    (db (after (delete_post 1 (mkState (db example_run) (Some 1))))) = false.
Proof.
  split; [reflexivity|]. split; [reflexivity|].
  exact (proj2 (proj2 (delete_commented_post_orphans
                         (mkState (db example_run) (Some 1)) 1
                         (BlogPost.mk 1 (Some 1) "Hello" "s" "November 03, 2026" "b" "i")
                         (Comment.mk 1 "nice post" (Some 2) (Some 1))
                         eq_refl eq_refl (or_introl eq_refl) eq_refl))).
Defined.

(** ** Parent references *)

Lemma parents_valid_iff (d : Database) :
  parents_valid d = true <->
  (forall c, In c (comments d) -> post_exists d (Comment.parent_post_id c) = true).
Proof.
  unfold parents_valid. rewrite forallb_forall. tauto.
Qed.

Lemma parents_valid_ext (d d' : Database) :
  blog_posts d' = blog_posts d -> comments d' = comments d ->
  parents_valid d = true -> parents_valid d' = true.
Proof.
  unfold parents_valid, post_exists. intros -> ->. tauto.
Qed.

Lemma parents_valid_more_posts (d d' : Database) (l : list BlogPost.t) :
  blog_posts d' = blog_posts d ++ l -> comments d' = comments d ->
  parents_valid d = true -> parents_valid d' = true.
Proof.
  intros Hp Hc Hv. apply parents_valid_iff. rewrite Hc.
  intros c Hin. pose proof (proj1 (parents_valid_iff d) Hv c Hin) as Hex.
  unfold post_exists in *. destruct (Comment.parent_post_id c); [|discriminate].
  rewrite Hp, existsb_app, Hex. reflexivity.
Qed.

Lemma show_post_parents (post_id : Z) (m : Method) (comment_form : CommentForm.t)
  (st : State) :
  BlogPost_query_get (db st) post_id <> None ->
  parents_valid (db st) = true ->
  parents_valid (db (after (show_post post_id m comment_form st))) = true.
Proof.
  intros Hfound Hv. unfold show_post.
  destruct (validate_on_submit _ _); [|exact Hv].
  destruct (current_user st) as [cu|]; [|exact Hv].
  destruct (BlogPost_query_get (db st) post_id) as [post|] eqn:Hget;
    [|now elim Hfound].
  apply parents_valid_iff. unfold insert_comment. simpl.
  intros c Hin. apply in_app_or in Hin. destruct Hin as [Hin | [<- | []]].
  - exact (proj1 (parents_valid_iff _) Hv c Hin).
  - simpl. apply existsb_exists. exists post.
    unfold BlogPost_query_get in Hget. apply find_some in Hget.
    split; [tauto | apply Z.eqb_refl].
Qed.

Lemma add_new_post_parents (m : Method) (form : CreatePostForm.t)
  (today : string) (st : State) :
  parents_valid (db st) = true ->
  parents_valid (db (after (add_new_post m form today st))) = true.
Proof.
  intros Hv. unfold add_new_post, admin_only.
  destruct (negb _ || _); [exact Hv|].
  unfold add_new_post_body.
  destruct (validate_on_submit _ _); [|exact Hv].
  destruct (current_user st) as [cu|]; [|exact Hv].
  unfold insert_post. destruct (existsb _ _); [exact Hv|].
  simpl. eapply parents_valid_more_posts; [| |exact Hv]; reflexivity.
Qed.

Lemma delete_post_parents (post_id : Z) (st : State) :
  (forall c, In c (comments (db st)) -> Comment.parent_post_id c <> Some post_id) ->
  parents_valid (db st) = true ->
  parents_valid (db (after (delete_post post_id st))) = true.
Proof.
  intros Hnone Hv. unfold delete_post, admin_only.
  destruct (negb _ || _); [exact Hv|].
  unfold delete_post_body.
  destruct (BlogPost_query_get (db st) post_id) as [post|] eqn:Hget; [|exact Hv].
  pose proof (find_post_id _ _ _ Hget) as Hid.
  apply parents_valid_iff. unfold delete_row. simpl. rewrite Hid.
  intros c Hin. apply in_map_iff in Hin. destruct Hin as [x [<- Hin]].
  pose proof (Hnone x Hin) as Hx.
  pose proof (proj1 (parents_valid_iff _) Hv x Hin) as Hex.
  destruct (Comment.parent_post_id x) as [j|] eqn:Hj; [|discriminate].
  assert (Hne : j <> post_id) by congruence.
  simpl. replace (j =? post_id) with false by (symmetry; now apply Z.eqb_neq).
  rewrite Hj. simpl in *.
  apply existsb_exists in Hex. destruct Hex as [p [Hp Hpj]].
  apply existsb_exists. exists p. split; [|exact Hpj].
  apply filter_In. split; [assumption|].
  apply Z.eqb_eq in Hpj. apply negb_true_iff. apply Z.eqb_neq. lia.
Qed.

Section Coverage.

Variable generate_password_hash : string -> string -> string.
Variable check_password_hash : string -> string -> bool.

Local Abbreviation handle := (handle generate_password_hash check_password_hash).
Local Abbreviation reachable := (reachable generate_password_hash check_password_hash).
Local Abbreviation run := (run generate_password_hash check_password_hash).

Lemma users_only_grow_aux (m : Method) (r : Request) (st : State) :
  exists l, users (db (after (handle m r st))) = users (db st) ++ l
            /\ (List.length l <= 1)%nat.
Proof.
  apply commits_users. apply handle_commits.
Qed.

(** No request removes or changes a user row: the rows after a request are
    the rows before it, followed by at most one new row. *)
Theorem users_only_grow (m : Method) (r : Request) (st : State) :
  exists l, users (db (after (handle m r st))) = users (db st) ++ l
            /\ (List.length l <= 1)%nat.
Proof.
  apply commits_users. apply handle_commits.
Qed.

(** No request removes a comment or changes the id, the text or the author
    of one: these are, after a request, what they were before it, followed
    by those of at most one new comment. *)
Theorem comments_never_removed (m : Method) (r : Request) (st : State) :
  exists l, map comment_content (comments (db (after (handle m r st))))
            = map comment_content (comments (db st)) ++ l
            /\ (List.length l <= 1)%nat.
Proof.
  apply commits_comments. apply handle_commits.
Qed.

(** In every reachable state the ids of each table are pairwise different
    and positive. *)
Theorem reachable_primary_keys (st : State) :
  reachable st -> primary_keys (db st).
Proof.
  apply (reachable_invariant generate_password_hash check_password_hash
           primary_keys).
  - unfold primary_keys. simpl. repeat split; constructor.
  - exact commits_primary_keys.
Qed.

(** In every reachable state the titles of the stored posts are pairwise
    different. *)
Theorem reachable_unique_titles (st : State) :
  reachable st -> unique_titles (db st).
Proof.
  apply (reachable_invariant generate_password_hash check_password_hash
           unique_titles).
  - constructor.
  - exact commits_unique_titles.
Qed.

(** *** Requests that change nothing *)

Ltac break_match :=
  match goal with
  | |- context [match ?c with _ => _ end] => destruct c eqn:?
  end.

(** A request whose method submits no form (GET, HEAD) leaves the database
    as it is on every route but the one of [delete_post]. *)
Theorem get_requests_preserve_database (m : Method) (r : Request) (st : State) :
  is_submitted m = false ->
  (forall post_id, r <> req_delete_post post_id) ->
  db (after (handle m r st)) = db st.
Proof.
  intros Hm Hr.
  pose proof (not_submitted m) as Hv.
  destruct r; simpl;
    unfold int_route, route, get_all_posts, register, login, logout, show_post,
      about, contact, add_new_post, edit_post, admin_only,
      add_new_post_body, edit_post_body;
    rewrite ?Hv by exact Hm;
    try (exfalso; eapply Hr; reflexivity);
    repeat break_match; reflexivity.
Qed.

(** A form that does not validate is never applied, whatever the method and
    the caller: a request whose form the validators reject, on any route but
    the one of [delete_post] (which reads no form), leaves the database as
    it is; no user, post or comment is stored from rejected data. *)
Theorem rejected_forms_change_nothing (m : Method) (r : Request) (st : State) :
  request_form_validates r = false ->
  (forall post_id, r <> req_delete_post post_id) ->
  db (after (handle m r st)) = db st.
Proof.
  intros Hrej Hr.
  assert (Hv : validate_on_submit m false = false)
    by (unfold validate_on_submit; apply andb_false_r).
  destruct r; simpl in Hrej; simpl;
    unfold int_route, route, get_all_posts, register, login, logout, show_post,
      about, contact, add_new_post, edit_post, admin_only,
      add_new_post_body, edit_post_body;
    rewrite ?Hrej, ?Hv;
    try (exfalso; eapply Hr; reflexivity);
    repeat break_match; reflexivity.
Qed.

Lemma register_keeps_posts_comments (m : Method) (reg_form : RegisterForm.t)
  (salt : string) (st : State) :
  blog_posts (db (after (register generate_password_hash m reg_form salt st)))
    = blog_posts (db st) /\
  comments (db (after (register generate_password_hash m reg_form salt st)))
    = comments (db st).
Proof.
  unfold register.
  destruct (validate_on_submit _ _); [|split; reflexivity].
  destruct (User_query_filter_by_email_first _ _); [split; reflexivity|].
  destruct (insert_user _ _ _ _) as [[new_user d]|e] eqn:E;
    [|split; reflexivity].
  apply insert_user_ok in E. destruct E as [_ ->]. split; reflexivity.
Qed.

Lemma login_keeps_database (m : Method) (login_form : LoginForm.t) (st : State) :
  db (after (login check_password_hash m login_form st)) = db st.
Proof.
  unfold login. repeat break_match; reflexivity.
Qed.

Lemma show_post_keeps_posts (post_id : Z) (m : Method)
  (comment_form : CommentForm.t) (st : State) :
  blog_posts (db (after (show_post post_id m comment_form st)))
    = blog_posts (db st).
Proof.
  unfold show_post. repeat break_match; reflexivity.
Qed.

Lemma show_post_anonymous (post_id : Z) (m : Method)
  (comment_form : CommentForm.t) (st : State) :
  current_user st = None ->
  after (show_post post_id m comment_form st) = st.
Proof.
  intros Hanon. unfold show_post. rewrite Hanon.
  repeat break_match; reflexivity.
Qed.

(** Whatever a caller who is not the administrator requests, on any route
    and with any method, the stored posts stay exactly as they are. *)
Theorem only_admin_changes_posts (m : Method) (r : Request) (st : State) :
  is_admin (current_user st) = false ->
  blog_posts (db (after (handle m r st))) = blog_posts (db st).
Proof.
  intros Hna.
  destruct r; simpl;
    unfold int_route, route, add_new_post, edit_post, delete_post;
    rewrite ?admin_only_reject by exact Hna;
    repeat break_match; try reflexivity.
  - apply register_keeps_posts_comments.
  - now rewrite login_keeps_database.
  - apply show_post_keeps_posts.
Qed.

(** Whatever an anonymous caller requests, posts and comments stay exactly
    as they are: the only rows such a caller can add are user rows. *)
Theorem anonymous_changes_only_users (m : Method) (r : Request) (st : State) :
  current_user st = None ->
  blog_posts (db (after (handle m r st))) = blog_posts (db st) /\
  comments (db (after (handle m r st))) = comments (db st).
Proof.
  intros Hanon.
  assert (Hna : is_admin (current_user st) = false) by (rewrite Hanon; reflexivity).
  destruct r; simpl;
    unfold int_route, route, add_new_post, edit_post, delete_post;
    rewrite ?admin_only_reject by exact Hna;
    repeat break_match; try (split; reflexivity).
  - apply register_keeps_posts_comments.
  - rewrite login_keeps_database. split; reflexivity.
  - rewrite show_post_anonymous by exact Hanon. split; reflexivity.
Qed.

(** *** Identity *)

(** A submitted, valid registration with a fresh email logs the new user in:
    afterwards [current_user] is the row just appended, whose id is one more
    than the largest id stored before. *)
Theorem register_logs_in_new_user (st : State) (m : Method)
  (reg_form : RegisterForm.t) (salt : string) :
  validate_on_submit m (RegisterForm.validate reg_form) = true ->
  (forall u, In u (users (db st)) ->
             User.email u <> RegisterForm.email reg_form) ->
  exists new_user,
    users (db (after (register generate_password_hash m reg_form salt st)))
      = users (db st) ++ [new_user] /\
    User.id new_user = next_id (map User.id (users (db st))) /\
    current_user (after (register generate_password_hash m reg_form salt st))
      = Some new_user.
Proof.
  intros Hval Hfresh. unfold register. rewrite Hval.
  apply find_email_none in Hfresh.
  assert (Hq : User_query_filter_by_email_first (db st)
                 (RegisterForm.email reg_form) = None) by exact Hfresh.
  rewrite Hq, (insert_user_fresh _ _ _ _ Hq). simpl.
  eexists. split; [reflexivity|]. split; [reflexivity|].
  unfold current_user, load_user, User_query_get. simpl.
  match goal with
  | |- find _ (?l ++ [?x]) = _ =>
      exact (find_snoc_fresh User.id l x (next_id_fresh _))
  end.
Qed.

(** In a reachable state a registration that succeeds makes the caller the
    administrator exactly when no user was stored before: the first user to
    register is the administrator, and nobody after them. *)
Theorem only_first_registrant_is_admin (st : State) (m : Method)
  (reg_form : RegisterForm.t) (salt : string) :
  reachable st ->
  validate_on_submit m (RegisterForm.validate reg_form) = true ->
  (forall u, In u (users (db st)) ->
             User.email u <> RegisterForm.email reg_form) ->
  is_admin (current_user
              (after (register generate_password_hash m reg_form salt st)))
  = match users (db st) with
    | [] => true
    | _ :: _ => false
    end.
Proof.
  intros Hreach Hval Hfresh.
  pose proof (reachable_invariant generate_password_hash check_password_hash
                primary_keys) as Hinv.
  assert (Hkeys : primary_keys (db st)).
  { apply Hinv; [|exact commits_primary_keys | exact Hreach].
    unfold primary_keys. simpl. repeat split; constructor. }
  destruct Hkeys as [[_ Hpos] _].
  unfold register. rewrite Hval.
  apply find_email_none in Hfresh.
  assert (Hq : User_query_filter_by_email_first (db st)
                 (RegisterForm.email reg_form) = None) by exact Hfresh.
  rewrite Hq, (insert_user_fresh _ _ _ _ Hq).
  unfold current_user, load_user, User_query_get. cbn -[Z.eqb next_id].
  match goal with
  | |- is_admin (find ?f (?l ++ [?x])) = _ =>
      replace (find f (l ++ [x])) with (Some x)
        by (symmetry; exact (find_snoc_fresh User.id l x (next_id_fresh _)))
  end.
  cbn -[Z.eqb next_id].
  destruct (users (db st)) as [|u us]; [reflexivity|].
  apply Z.eqb_neq.
  assert (Hu : 1 <= User.id u) by (inversion Hpos; assumption).
  pose proof (next_id_above (map User.id (u :: us)) (User.id u) (or_introl eq_refl)).
  lia.
Qed.

(** With pairwise different user ids a successful login makes the user found
    under the email of the form the current user, and leaves the database
    as it is. *)
Theorem login_sets_current_user (st : State) (m : Method)
  (login_form : LoginForm.t) (found_user : User.t) :
  NoDup (map User.id (users (db st))) ->
  validate_on_submit m (LoginForm.validate login_form) = true ->
  User_query_filter_by_email_first (db st) (LoginForm.email login_form)
    = Some found_user ->
  check_password_hash (User.password found_user)
                      (LoginForm.password login_form) = true ->
  current_user (after (login check_password_hash m login_form st))
    = Some found_user /\
  db (after (login check_password_hash m login_form st)) = db st.
Proof.
  intros Hnd Hval Hq Hc. unfold login. rewrite Hval, Hq, Hc. simpl.
  split; [|reflexivity].
  unfold current_user, load_user, User_query_get. simpl.
  apply (find_key_unique User.id); [assumption|].
  unfold User_query_filter_by_email_first in Hq. apply find_some in Hq. tauto.
Qed.

(** *** Missing posts *)

(** A GET for a post id below [2^63] that no stored post has is not
    answered 404: the route of [show_post] renders the post page without a
    post, and the route of [edit_post], for the administrator, fails with
    the [AttributeError] of reading [post.title]; the state stays as it
    is. *)
Theorem missing_post_is_not_404 (st : State) (post_id : Z) :
  0 <= post_id < 2 ^ 63 ->
  BlogPost_query_get (db st) post_id = None ->
  (forall comment_form,
     handle GET (req_show_post post_id comment_form) st
     = respond (render_template "post.html" (ctx_post None)) st) /\
  (is_admin (current_user st) = true ->
   forall edit_form,
     handle GET (req_edit_post post_id edit_form) st
     = unhandled AttributeError st).
Proof.
  intros [Hpos _] Hmiss.
  assert (Hle : (0 <=? post_id) = true) by now apply Z.leb_le.
  split.
  - intros comment_form. simpl. unfold int_route, route, show_post.
    rewrite Hle, Hmiss. reflexivity.
  - intros Hadm edit_form. simpl. unfold int_route, route, edit_post.
    rewrite Hle. simpl. rewrite admin_only_pass by assumption.
    unfold edit_post_body. rewrite Hmiss. reflexivity.
Qed.

(** *** Referential integrity *)

(** Referential integrity is lost on two paths only.  A request that is
    neither a comment for a post id that no stored post has nor the deletion
    of a post that a comment refers to keeps it. *)
Theorem integrity_kept_by_other_requests (m : Method) (r : Request) (st : State) :
  referential_integrity (db st) = true ->
  (forall post_id comment_form,
     r = req_show_post post_id comment_form ->
     BlogPost_query_get (db st) post_id <> None) ->
  (forall post_id,
     r = req_delete_post post_id ->
     forall c, In c (comments (db st)) ->
               Comment.parent_post_id c <> Some post_id) ->
  referential_integrity (db (after (handle m r st))) = true.
Proof.
  intros Hint Hshow Hdel.
  unfold referential_integrity in *. apply andb_true_iff in Hint.
  destruct Hint as [Ha Hp].
  rewrite (commits_authors_valid st _ Ha (handle_commits _ _ m r st)). simpl.
  destruct r; simpl; unfold int_route, route;
    repeat break_match; simpl; try exact Hp.
  - eapply parents_valid_ext; [| |exact Hp];
      apply register_keeps_posts_comments.
  - now rewrite login_keeps_database.
  - apply show_post_parents; [|exact Hp]. now apply (Hshow _ comment_form).
  - now apply add_new_post_parents.
  - replace (after (edit_post post_id m edit_form st)) with st; [exact Hp|].
    unfold edit_post, admin_only, edit_post_body.
    rewrite not_submitted by (destruct m; try discriminate; reflexivity).
    repeat break_match; reflexivity.
  - apply delete_post_parents; [|exact Hp]. now apply Hdel.
Qed.

Lemma handle_session (m : Method) (r : Request) (st : State) :
  session (after (handle m r st)) = session st \/
  session (after (handle m r st)) = None \/
  exists u, In u (users (db (after (handle m r st)))) /\
            session (after (handle m r st)) = Some (User.id u).
Proof.
  destruct r; simpl;
    unfold int_route, route, get_all_posts, register, login, logout, show_post,
      about, contact, add_new_post, edit_post, delete_post, admin_only,
      add_new_post_body, edit_post_body, delete_post_body,
      User_query_filter_by_email_first;
    repeat break_match; simpl;
    try (left; reflexivity); try (right; left; reflexivity).
  - right. right.
    match goal with
    | H : insert_user _ _ _ _ = Ok _ |- _ =>
        apply insert_user_ok in H; destruct H as [_ ->]
    end.
    eexists. split; [|reflexivity]. simpl. apply in_or_app. right. now left.
  - right. right.
    match goal with
    | H : find _ _ = Some ?u |- _ => apply find_some in H; exists u; tauto
    end.
Qed.

Lemma reachable_session (st : State) : reachable st -> session_valid st.
Proof.
  intros H. induction H as [|st m r H IH].
  - exact I.
  - unfold session_valid in *.
    destruct (users_only_grow_aux m r st) as [l [Hl _]].
    destruct (handle_session m r st) as [Hs | [Hs | [u [Hin Hs]]]];
      rewrite Hs.
    + destruct (session st) as [i|]; [|exact I].
      simpl in *. rewrite Hl, existsb_app, IH. reflexivity.
    + exact I.
    + simpl. apply existsb_exists. exists u.
      split; [assumption | apply Z.eqb_refl].
Qed.

(** In every reachable state a session that carries a user id carries the id
    of a stored user, and [current_user] is that user: a logged-in caller
    never turns anonymous. *)
Theorem reachable_session_resolves (st : State) (i : Z) :
  reachable st -> session st = Some i ->
  exists u, current_user st = Some u /\ User.id u = i /\ In u (users (db st)).
Proof.
  intros H Hs. apply session_valid_current_user; [|exact Hs].
  now apply reachable_session.
Qed.

End Coverage.

(** ** The example run *)

Lemma example_run_reachable :
  reachable example_generate example_check example_run.
Proof.
  apply run_reachable. constructor.
Qed.

Example example_run_state :
  example_run
  = mkState
      (mkDatabase
         [User.mk 1 "admin@x.com" (example_generate "secret" "s1") "Admin";
          User.mk 2 "a@x.com" (example_generate "pw" "s2") "A"]
         [BlogPost.mk 1 (Some 1) "Hello" "s" "November 03, 2026" "b" "i"]
         [Comment.mk 1 "nice post" (Some 2) (Some 1)])
      (Some 2).
Proof. reflexivity. Qed.

Lemma reachable_primary_keys_witness :
  reachable example_generate example_check example_run /\
  primary_keys (db example_run).
Proof.
  split; [exact example_run_reachable|].
  exact (reachable_primary_keys example_generate example_check example_run
           example_run_reachable).
Defined.

Lemma reachable_unique_titles_witness :
  reachable example_generate example_check example_run /\
  unique_titles (db example_run).
Proof.
  split; [exact example_run_reachable|].
  exact (reachable_unique_titles example_generate example_check example_run
           example_run_reachable).
Defined.

Lemma reachable_unique_emails_witness :
  reachable example_generate example_check example_run /\
  unique_emails (db example_run).
Proof.
  split; [exact example_run_reachable|].
  exact (reachable_unique_emails example_generate example_check example_run
           example_run_reachable).
Defined.

Lemma reachable_authors_valid_witness :
  reachable example_generate example_check example_run /\
  authors_valid (db example_run) = true.
Proof.
  split; [exact example_run_reachable|].
  exact (reachable_authors_valid example_generate example_check example_run
           example_run_reachable).
Defined.

Lemma reachable_session_resolves_witness :
  reachable example_generate example_check example_run /\
  session example_run = Some 2 /\
  exists u, current_user example_run = Some u /\ User.id u = 2.
Proof.
  split; [exact example_run_reachable|]. split; [reflexivity|].
  destruct (reachable_session_resolves example_generate example_check
              example_run 2 example_run_reachable eq_refl) as [u [Hcu [Hid _]]].
  exists u. split; [exact Hcu | exact Hid].
Defined.

Lemma get_requests_preserve_database_witness :
  is_submitted GET = false /\
  db (after (handle example_generate example_check GET
               (req_show_post 1 (CommentForm.mk "nice post" true))
               example_reader_state)) = db example_reader_state.
Proof.
  split; [reflexivity|].
  apply (get_requests_preserve_database example_generate example_check GET
           (req_show_post 1 (CommentForm.mk "nice post" true))
           example_reader_state eq_refl).
  intros post_id. discriminate.
Defined.

Lemma only_admin_changes_posts_witness :
  is_admin (current_user example_reader_state) = false /\
  blog_posts (db (after (handle example_generate example_check GET
                           (req_delete_post 1) example_reader_state)))
  = [example_post].
Proof.
  split; [reflexivity|].
  exact (only_admin_changes_posts example_generate example_check GET
           (req_delete_post 1) example_reader_state eq_refl).
Defined.

Lemma anonymous_changes_only_users_witness :
  current_user example_anonymous_state = None /\
  comments (db (after (handle example_generate example_check POST
                         (req_show_post 1 (CommentForm.mk "nice post" true))
                         example_anonymous_state))) = [].
Proof.
  split; [reflexivity|].
  exact (proj2 (anonymous_changes_only_users example_generate example_check POST
                  (req_show_post 1 (CommentForm.mk "nice post" true))
                  example_anonymous_state eq_refl)).
Defined.

Lemma register_logs_in_new_user_witness :
  exists new_user,
    current_user (after (register example_generate POST
                           (RegisterForm.mk "b@x.com" "pw" "B" true) "s3"
                           example_anonymous_state)) = Some new_user /\
    User.id new_user = 3.
Proof.
  destruct (register_logs_in_new_user example_generate example_anonymous_state
              POST (RegisterForm.mk "b@x.com" "pw" "B" true) "s3" eq_refl)
    as [new_user [_ [Hid Hcu]]].
  - intros u [<- | [<- | []]]; discriminate.
  - exists new_user. split; [exact Hcu | exact Hid].
Defined.

Lemma only_first_registrant_is_admin_witness :
  is_admin (current_user
              (after (register example_generate POST
                        (RegisterForm.mk "admin@x.com" "secret" "Admin" true)
                        "s1" initial))) = true /\
  is_admin (current_user
              (after (register example_generate POST
                        (RegisterForm.mk "b@x.com" "pw" "B" true)
                        "s3" example_run))) = false.
Proof.
  split.
  - apply (only_first_registrant_is_admin example_generate example_check
             initial POST (RegisterForm.mk "admin@x.com" "secret" "Admin" true)
             "s1" (reachable_initial _ _) eq_refl).
    intros u [].
  - apply (only_first_registrant_is_admin example_generate example_check
             example_run POST (RegisterForm.mk "b@x.com" "pw" "B" true)
             "s3" example_run_reachable eq_refl).
    intros u [<- | [<- | []]]; discriminate.
Defined.

Lemma login_sets_current_user_witness :
  NoDup (map User.id (users (db example_anonymous_state))) /\
  current_user (after (login example_check POST
                         (LoginForm.mk "a@x.com" "pw" true)
                         example_anonymous_state)) = Some example_reader.
Proof.
  assert (Hnd : NoDup (map User.id (users (db example_anonymous_state)))).
  { simpl. repeat constructor; simpl; intuition discriminate. }
  split; [exact Hnd|].
  exact (proj1 (login_sets_current_user example_check example_anonymous_state
                  POST (LoginForm.mk "a@x.com" "pw" true) example_reader
                  Hnd eq_refl eq_refl eq_refl)).
Defined.

Lemma missing_post_is_not_404_witness :
  0 <= 7 < 2 ^ 63 /\
  BlogPost_query_get (db example_admin_state) 7 = None /\
  is_admin (current_user example_admin_state) = true /\
  response (handle example_generate example_check GET
              (req_edit_post 7 (CreatePostForm.mk "t" "s" "i" None "b" true))
              example_admin_state) = raised AttributeError.
Proof.
  assert (Hpos : 0 <= 7 < 2 ^ 63) by (split; [discriminate | reflexivity]).
  split; [exact Hpos|]. split; [reflexivity|]. split; [reflexivity|].
  destruct (missing_post_is_not_404 example_generate example_check
              example_admin_state 7 Hpos eq_refl) as [_ Hedit].
  rewrite (Hedit eq_refl). reflexivity.
Defined.

Lemma integrity_kept_by_other_requests_witness :
  referential_integrity (db example_run) = true /\
  referential_integrity
    (db (after (handle example_generate example_check POST
                  (req_show_post 1 (CommentForm.mk "me too" true))
                  example_run))) = true.
Proof.
  split; [reflexivity|].
  apply (integrity_kept_by_other_requests example_generate example_check POST
           (req_show_post 1 (CommentForm.mk "me too" true)) example_run eq_refl).
  - intros post_id comment_form Heq. injection Heq as <- _. discriminate.
  - intros post_id Heq. discriminate.
Defined.

Lemma rejected_forms_change_nothing_witness :
  request_form_validates
    (req_register (RegisterForm.mk "b@x.com" "pw" "B" false) "s3") = false /\
  users (db (after (handle example_generate example_check POST
                      (req_register (RegisterForm.mk "b@x.com" "pw" "B" false) "s3")
                      example_anonymous_state)))
  = [example_admin; example_reader] /\
  comments (db (after (handle example_generate example_check POST
                         (req_show_post 1 (CommentForm.mk "" false))
                         example_reader_state))) = [].
Proof.
  split; [reflexivity|]. split.
  - rewrite (rejected_forms_change_nothing example_generate example_check POST
               (req_register (RegisterForm.mk "b@x.com" "pw" "B" false) "s3")
               example_anonymous_state eq_refl).
    + reflexivity.
    + intros post_id. discriminate.
  - rewrite (rejected_forms_change_nothing example_generate example_check POST
               (req_show_post 1 (CommentForm.mk "" false))
               example_reader_state eq_refl).
    + reflexivity.
    + intros post_id. discriminate.
Defined.
